(** * pki_playground: a shallow embedding of [pki_playground.py]

    The script drives a small certificate hierarchy through the
    filesystem and a handful of external programs.  The embedding keeps
    that shape: a world record holding the directory tree, the standard
    streams and the log of launched processes; a state-and-exception
    monad for the control flow ([sys.exit], [subprocess.CalledProcessError],
    [KeyboardInterrupt] ...); and one definition per Python function,
    under the name it has in the source.

    Text is modelled as [string] (a sequence of characters); the
    [encoding="utf8"] of every [open] is not modelled.  The tree has
    directories and regular files only: no symbolic links, owners or
    permissions.  The registration of the command-line options
    ([_parser_register_arguments]) is part of argparse's work and appears
    as the parser of the environment. *)

From Stdlib Require Import Ascii String.
From stdpp Require Import gmap strings list sorting.

Local Open Scope stdpp_scope.

(** ** Text *)

Definition LF : ascii := "010"%char.
Definition CR : ascii := "013"%char.
Definition SLASH : ascii := "/"%char.

Definition nl : string := String LF EmptyString.

Definition is_empty (s : string) : bool :=
  match s with EmptyString => true | String _ _ => false end.

(** Python's [needle in haystack] on [str]. *)
Fixpoint contains (needle haystack : string) : bool :=
  String.prefix needle haystack ||
  match haystack with
  | EmptyString => false
  | String _ rest => contains needle rest
  end.

(** [str.endswith] and [str.startswith] for a single character. *)
Fixpoint ends_with (c : ascii) (s : string) : bool :=
  match s with
  | EmptyString => false
  | String d EmptyString => Ascii.eqb d c
  | String _ rest => ends_with c rest
  end.

Definition starts_with (c : ascii) (s : string) : bool :=
  match s with
  | String d _ => Ascii.eqb d c
  | EmptyString => false
  end.

(** Reading a file opened in text mode with the default [newline=None]:
    every [\r\n] and every lone [\r] arrives as [\n]. *)
Fixpoint universal_newlines (s : string) : string :=
  match s with
  | EmptyString => EmptyString
  | String c rest =>
      if Ascii.eqb c CR then
        match rest with
        | String d rest' =>
            if Ascii.eqb d LF then String LF (universal_newlines rest')
            else String LF (universal_newlines rest)
        | EmptyString => nl
        end
      else String c (universal_newlines rest)
  end.

(** [for line in f]: the lines of a text, each with its terminator; the
    last one has none when the text does not end in a newline. *)
Fixpoint readlines (s : string) : list string :=
  match s with
  | EmptyString => []
  | String c rest =>
      if Ascii.eqb c LF then nl :: readlines rest
      else match readlines rest with
           | [] => [String c EmptyString]
           | l :: ls => String c l :: ls
           end
  end.

Definition concat_strings (ls : list string) : string :=
  foldr String.append EmptyString ls.

(** ** Paths *)

(** [posixpath.join a b]. *)
Definition path_join (a b : string) : string :=
  if starts_with SLASH b then b
  else if is_empty a || ends_with SLASH a then a +:+ b
  else a +:+ "/" +:+ b.

(** The components of a path, split at every slash. *)
Fixpoint components (s : string) : list string :=
  match s with
  | EmptyString => [EmptyString]
  | String c rest =>
      if Ascii.eqb c SLASH then EmptyString :: components rest
      else match components rest with
           | [] => [String c EmptyString]
           | h :: t => String c h :: t
           end
  end.

(** [mkdir] accepts trailing slashes on the name of the new directory. *)
Fixpoint drop_trailing_empty (comps : list string) : list string :=
  match comps with
  | [] => []
  | c :: rest =>
      match drop_trailing_empty rest with
      | [] => if is_empty c then [] else [c]
      | r => c :: r
      end
  end.

(** ** The directory tree *)

Inductive node : Type :=
| Dir
| File (content : string).

(** A tree is a finite map from resolved absolute paths (component
    lists, the root being the empty list) to nodes. *)
Abbreviation tree := (gmap (list string) node).

Definition is_dir (t : tree) (p : list string) : bool :=
  match p with
  | [] => true
  | _ => match t !! p with Some Dir => true | _ => false end
  end.

Definition is_file (t : tree) (p : list string) : bool :=
  match p with
  | [] => false
  | _ => match t !! p with Some (File _) => true | _ => false end
  end.

Definition present (t : tree) (p : list string) : bool :=
  match p with
  | [] => true
  | _ => match t !! p with Some _ => true | None => false end
  end.

Definition step_into (cur : list string) (c : string) : list string :=
  if is_empty c then cur
  else if String.eqb c "." then cur
  else if String.eqb c ".." then removelast cur
  else cur ++ [c].

(** Path resolution without symbolic links: every component is looked
    up in a directory; only the last one may be absent. *)
Fixpoint walk (t : tree) (cur : list string) (comps : list string)
  : option (list string) :=
  match comps with
  | [] => Some cur
  | c :: rest =>
      if is_dir t cur then walk t (step_into cur c) rest else None
  end.

Definition start_of (cwd : list string) (p : string) : list string :=
  if starts_with SLASH p then [] else cwd.

Definition resolve (t : tree) (cwd : list string) (p : string)
  : option (list string) :=
  if is_empty p then None
  else walk t (start_of cwd p) (components p).

Definition resolve_new (t : tree) (cwd : list string) (p : string)
  : option (list string) :=
  if is_empty p then None
  else walk t (start_of cwd p) (drop_trailing_empty (components p)).

(** ** The world *)

(** What a child process reports back to [subprocess.run]. *)
Inductive status : Type :=
| Exited (code : nat)
| Interrupted
| NotInstalled.

Inductive exn : Type :=
| SystemExit (code : nat)
| CalledProcessError (returncode : nat)
| KeyboardInterrupt
| OSError
| EOFError
| TemplateError.

Record World : Type := mkWorld {
  fs : tree;
  cwd : list string;
  euid : nat;
  argv : list string;
  stdin : list string;
  stdout : list string;
  stderr : list string;
  calls : list (list string * option string)
}.

Definition with_fs (t : tree) (w : World) : World :=
  mkWorld t (cwd w) (euid w) (argv w) (stdin w) (stdout w) (stderr w) (calls w).

Definition with_stdin (l : list string) (w : World) : World :=
  mkWorld (fs w) (cwd w) (euid w) (argv w) l (stdout w) (stderr w) (calls w).

Definition emit (s : string) (w : World) : World :=
  mkWorld (fs w) (cwd w) (euid w) (argv w) (stdin w) (stdout w ++ [s])
    (stderr w) (calls w).

Definition emit_err (s : string) (w : World) : World :=
  mkWorld (fs w) (cwd w) (euid w) (argv w) (stdin w) (stdout w)
    (stderr w ++ [s]) (calls w).

Definition log_call (c : list string * option string) (w : World) : World :=
  mkWorld (fs w) (cwd w) (euid w) (argv w) (stdin w) (stdout w) (stderr w)
    (calls w ++ [c]).

(** ** Control flow: state and exceptions *)

Inductive outcome (A : Type) : Type :=
| Returned (a : A)
| Raised (e : exn).
Arguments Returned {A} a.
Arguments Raised {A} e.

Definition M (A : Type) : Type := World -> outcome A * World.

Definition ret {A} (a : A) : M A := fun w => (Returned a, w).

Definition raise {A} (e : exn) : M A := fun w => (Raised e, w).

Definition bind {A B} (m : M A) (k : A -> M B) : M B :=
  fun w =>
    match m w with
    | (Returned a, w') => k a w'
    | (Raised e, w') => (Raised e, w')
    end.

Notation "x <- m ;; k" := (bind m (fun x => k))
  (at level 100, m at next level, right associativity).
Notation "m ;;; k" := (bind m (fun _ => k))
  (at level 100, right associativity).

(** [try: body except <handled>: handler]; [handles] picks the
    exceptions the clause names. *)
Definition try_except {A} (body : M A) (handles : exn -> bool)
    (handler : M A) : M A :=
  fun w =>
    match body w with
    | (Raised e, w') => if handles e then handler w' else (Raised e, w')
    | r => r
    end.

Definition when (b : bool) (m : M unit) : M unit :=
  if b then m else ret tt.

Fixpoint for_each {A} (l : list A) (body : A -> M unit) : M unit :=
  match l with
  | [] => ret tt
  | x :: rest => body x ;;; for_each rest body
  end.

(** ** Python primitives *)

Definition print (s : string) : M unit :=
  fun w => (Returned tt, emit (s +:+ nl) w).

Definition input (prompt : string) : M string :=
  fun w =>
    let w' := emit prompt w in
    match stdin w' with
    | [] => (Raised EOFError, w')
    | l :: rest => (Returned l, with_stdin rest w')
    end.

Definition sys_exit {A} (code : nat) : M A := raise (SystemExit code).

Definition os_geteuid : M nat := fun w => (Returned (euid w), w).

Definition exists_in (t : tree) (d : list string) (p : string) : bool :=
  match resolve t d p with
  | Some k => present t k
  | None => false
  end.

Definition isfile_in (t : tree) (d : list string) (p : string) : bool :=
  match resolve t d p with
  | Some k => is_file t k
  | None => false
  end.

Definition os_path_exists (p : string) : M bool :=
  fun w => (Returned (exists_in (fs w) (cwd w) p), w).

Definition os_path_isfile (p : string) : M bool :=
  fun w => (Returned (isfile_in (fs w) (cwd w) p), w).

Definition os_mkdir (p : string) : M unit :=
  fun w =>
    match resolve_new (fs w) (cwd w) p with
    | Some k =>
        if present (fs w) k then (Raised OSError, w)
        else (Returned tt, with_fs (<[k := Dir]> (fs w)) w)
    | None => (Raised OSError, w)
    end.

(** An open file is held by the resolved path of its node. *)
Definition open_r (p : string) : M (list string) :=
  fun w =>
    match resolve (fs w) (cwd w) p with
    | Some k => if is_file (fs w) k then (Returned k, w) else (Raised OSError, w)
    | None => (Raised OSError, w)
    end.

Definition open_w (p : string) : M (list string) :=
  fun w =>
    match resolve (fs w) (cwd w) p with
    | Some k =>
        if is_dir (fs w) k then (Raised OSError, w)
        else (Returned k, with_fs (<[k := File EmptyString]> (fs w)) w)
    | None => (Raised OSError, w)
    end.

Definition open_a (p : string) : M (list string) :=
  fun w =>
    match resolve (fs w) (cwd w) p with
    | Some k =>
        if is_dir (fs w) k then (Raised OSError, w)
        else if is_file (fs w) k then (Returned k, w)
        else (Returned k, with_fs (<[k := File EmptyString]> (fs w)) w)
    | None => (Raised OSError, w)
    end.

Definition content_at (t : tree) (k : list string) : string :=
  match t !! k with
  | Some (File c) => c
  | _ => EmptyString
  end.

Definition file_read (h : list string) : M string :=
  fun w => (Returned (universal_newlines (content_at (fs w) h)), w).

Definition file_lines (h : list string) : M (list string) :=
  fun w => (Returned (readlines (universal_newlines (content_at (fs w) h))), w).

Definition file_write (h : list string) (s : string) : M unit :=
  fun w =>
    (Returned tt, with_fs (<[h := File (content_at (fs w) h +:+ s)]> (fs w)) w).

(** ** Child processes *)

(** [rm FILE...] and [mv SOURCE DEST] as the script uses them: no
    options, regular files only (a directory operand makes them fail and
    change nothing). *)
Fixpoint rm_each (operands : list string) (d : list string) (t : tree)
  : bool * tree :=
  match operands with
  | [] => (true, t)
  | f :: rest =>
      match resolve t d f with
      | Some k =>
          if is_file t k then rm_each rest d (delete k t)
          else (false, (rm_each rest d t).2)
      | None => (false, (rm_each rest d t).2)
      end
  end.

Definition coreutils_rm (operands : list string) (d : list string) (t : tree)
  : status * tree :=
  match operands with
  | [] => (Exited 1, t)
  | _ =>
      let r := rm_each operands d t in
      (Exited (if r.1 then 0 else 1), r.2)
  end.

Definition coreutils_mv (operands : list string) (d : list string) (t : tree)
  : status * tree :=
  match operands with
  | [src; dst] =>
      match resolve t d src, resolve t d dst with
      | Some ks, Some kd =>
          if is_file t ks then
            let target :=
              if is_dir t kd then kd ++ [List.last ks EmptyString] else kd in
            if is_dir t target then (Exited 1, t)
            else if bool_decide (ks = target) then (Exited 1, t)
            else (Exited 0, <[target := File (content_at t ks)]> (delete ks t))
          else (Exited 1, t)
      | _, _ => (Exited 1, t)
      end
  | _ => (Exited 1, t)
  end.

(** ** The environment of the script

    Everything the script borrows: the external programs other than
    [rm] and [mv] (openssl, keytool, docker-compose, git-crypt), the
    Jinja2 template engine and argparse.  A program is a function of its
    argument vector, its working directory and the tree, and of the
    number of processes launched before it, so that two runs of one
    command line need not agree. *)

Record Namespace : Type := mkNamespace {
  pki_init : option string;
  create_server_cert : option (string * string);
  create_deployment : option (string * string * string * string);
  start_deployment : option string;
  unlock : option string
}.

Class Environment : Type := {
  toolkit : nat -> list string -> list string -> tree -> status * tree;
  Template : Type;
  jinja2_Template : string -> option Template;
  jinja2_render : Template -> list (string * string) -> option string;
  parse_args : list string -> Namespace + nat;
  format_help : string
}.

Section Script.
Context {env : Environment}.

Definition run_program (seed : nat) (args : list string) (d : list string)
    (t : tree) : status * tree :=
  match args with
  | prog :: operands =>
      if String.eqb prog "rm" then coreutils_rm operands d t
      else if String.eqb prog "mv" then coreutils_mv operands d t
      else toolkit seed args d t
  | [] => toolkit seed args d t
  end.

(** [subprocess.run(args, cwd=dir, check=check)]. *)
Definition subprocess_run (args : list string) (dir : option string)
    (check : bool) : M unit :=
  fun w =>
    let launch_dir :=
      match dir with
      | Some p =>
          match resolve (fs w) (cwd w) p with
          | Some k => if is_dir (fs w) k then Some k else None
          | None => None
          end
      | None => Some (cwd w)
      end in
    match launch_dir with
    | None => (Raised OSError, w)
    | Some d =>
        match run_program (length (calls w)) args d (fs w) with
        | (NotInstalled, _) => (Raised OSError, w)
        | (Interrupted, t) =>
            (Raised KeyboardInterrupt, log_call (args, dir) (with_fs t w))
        | (Exited code, t) =>
            let w' := log_call (args, dir) (with_fs t w) in
            if check && negb (Nat.eqb code 0)
            then (Raised (CalledProcessError code), w')
            else (Returned tt, w')
        end
    end.

Definition make_template (text : string) : M Template :=
  match jinja2_Template text with
  | Some t => ret t
  | None => raise TemplateError
  end.

Definition template_render (t : Template) (kw : list (string * string))
  : M string :=
  match jinja2_render t kw with
  | Some s => ret s
  | None => raise TemplateError
  end.

(** ** The script *)

Definition PKI_DIR : string := "pkis".
Definition DEP_DIR : string := "deployments".

Definition executed_as_root : M bool :=
  uid <- os_geteuid ;;
  ret (Nat.eqb uid 0).

Definition _check_files (files : list string) : M unit :=
  for_each files (fun file_path =>
    found <- os_path_isfile file_path ;;
    when (negb found)
      (print ("Error: missing file " +:+ file_path +:+ "!") ;;;
       sys_exit 1)).

Definition openssl_root_command (pki_name : string) : list string :=
  [ "openssl"; "req"; "-x509"; "-sha256"; "-days"; "356"; "-nodes";
    "-newkey"; "rsa:2048"; "-subj";
    "/CN=" +:+ pki_name +:+ ".com/C=UA/L=Kiev";
    "-keyout"; pki_name +:+ ".key"; "-out"; pki_name +:+ ".crt" ].

Definition openssl_genrsa_command (pki_name : string) : list string :=
  [ "openssl"; "genrsa"; "-out"; "private." +:+ pki_name +:+ ".key"; "2048" ].

Definition openssl_gencsr_command (pki_name : string) : list string :=
  [ "openssl"; "req"; "-new"; "-key"; "private." +:+ pki_name +:+ ".key";
    "-out"; pki_name +:+ ".csr"; "-config"; "csr.conf" ].

Definition _generate_root_certs (pki_name : string) : M unit :=
  let working_directory := "./" +:+ path_join PKI_DIR pki_name in
  print ("Generating root certificates at " +:+ working_directory) ;;;
  found <- os_path_exists working_directory ;;
  (if negb found then os_mkdir working_directory
   else
     print ("Error: PKI with the name " +:+ pki_name +:+ " already exists") ;;;
     sys_exit 1) ;;;
  subprocess_run (openssl_root_command pki_name)
    (Some working_directory) true ;;;
  subprocess_run (openssl_genrsa_command pki_name)
    (Some working_directory) true ;;;
  jfile <- open_r (PKI_DIR +:+ "/csr_template.j2") ;;
  text <- file_read jfile ;;
  template <- make_template text ;;
  file <- open_w (working_directory +:+ "/csr.conf") ;;
  rendered <- template_render template [("PKI_NAME", pki_name)] ;;
  file_write file rendered ;;;
  subprocess_run (openssl_gencsr_command pki_name)
    (Some working_directory) true ;;;
  print ("Done generating root certificates at " +:+ working_directory).

Definition required_root_files (pki_name : string) : list string :=
  [ "./pkis/" +:+ pki_name +:+ "/private." +:+ pki_name +:+ ".key";
    "./pkis/" +:+ pki_name +:+ "/" +:+ pki_name +:+ ".crt";
    "./pkis/" +:+ pki_name +:+ "/" +:+ pki_name +:+ ".csr";
    "./pkis/" +:+ pki_name +:+ "/" +:+ pki_name +:+ ".key" ].

Definition openssl_create_ssl (pki_name server_domain : string)
  : list string :=
  [ "openssl"; "x509"; "-req";
    "-in"; "../../" +:+ pki_name +:+ ".csr";
    "-CA"; "../../" +:+ pki_name +:+ ".crt";
    "-CAkey"; "../../" +:+ pki_name +:+ ".key";
    "-subj";
    "/C=UA/ST=Kiev Oblast/L=Something/O=Something Corp/OU=IT Dept/CN="
      +:+ server_domain;
    "-CAcreateserial";
    "-out"; server_domain +:+ ".crt";
    "-days"; "365";
    "-sha256";
    "-extfile"; "cert.conf" ].

Definition openssl_create_pkcs12_keystore
    (pki_name server_domain keystore_password : string) : list string :=
  [ "openssl"; "pkcs12"; "-export";
    "-out"; "keystore.pkcs12";
    "-passout"; "pass:" +:+ keystore_password;
    "-inkey"; "../../private." +:+ pki_name +:+ ".key";
    "-in"; "../../servers/" +:+ server_domain +:+ "/" +:+ server_domain
             +:+ ".crt";
    "-certfile"; "../../" +:+ pki_name +:+ ".crt";
    "-name"; server_domain ].

Definition openssl_convert_to_jks (server_domain keystore_password : string)
  : list string :=
  [ "keytool"; "-importkeystore";
    "-srckeystore"; "keystore.pkcs12";
    "-srcstorepass"; keystore_password;
    "-srcstoretype"; "pkcs12";
    "-srcalias"; server_domain;
    "-deststoretype"; "jks";
    "-destkeystore"; "keystore.jks";
    "-deststorepass"; keystore_password;
    "-destalias"; server_domain ].

Definition _generate_server_certs (pki_name server_domain : string)
  : M unit :=
  let pki_directory := path_join PKI_DIR pki_name in
  found <- os_path_exists pki_directory ;;
  when (negb found)
    (print ("Error: PKI directory with the name of " +:+ pki_name
            +:+ " does not exist") ;;;
     sys_exit 1) ;;;
  _check_files (required_root_files pki_name) ;;;
  let server_directory := path_join pki_directory "servers" in
  found <- os_path_exists server_directory ;;
  when (negb found) (os_mkdir server_directory) ;;;
  let domain_directory := path_join server_directory server_domain in
  found <- os_path_exists domain_directory ;;
  when (negb found)
    (os_mkdir domain_directory ;;;
     print ("Error: " +:+ domain_directory +:+ " is already in use")) ;;;
  let working_directory := "./" +:+ domain_directory in
  print ("Generating server certificates at " +:+ working_directory) ;;;
  jfile <- open_r "./pkis/cert_template.j2" ;;
  text <- file_read jfile ;;
  cert_template <- make_template text ;;
  cert_conf <- open_w (domain_directory +:+ "/cert.conf") ;;
  rendered <- template_render cert_template
                [("SERVER_DOMAIN", server_domain)] ;;
  file_write cert_conf rendered ;;;
  subprocess_run (openssl_create_ssl pki_name server_domain)
    (Some working_directory) true ;;;
  keystore_password <-
    input "Enter the keystore password(at least 6 characters): " ;;
  subprocess_run
    (openssl_create_pkcs12_keystore pki_name server_domain keystore_password)
    (Some working_directory) true ;;;
  subprocess_run (openssl_convert_to_jks server_domain keystore_password)
    (Some working_directory) true ;;;
  subprocess_run ["rm"; "keystore.pkcs12"] (Some working_directory) true ;;;
  print ("Done generating server certificates at " +:+ working_directory).

Definition _generate_deployment
    (deployment_name https_port pki_name domain_name : string) : M unit :=
  print ("Generating the deployment " +:+ deployment_name) ;;;
  let deployment_path := path_join DEP_DIR deployment_name in
  print ("Generating the new deployment at " +:+ deployment_path) ;;;
  found <- os_path_exists deployment_path ;;
  when (negb found) (os_mkdir deployment_path) ;;;
  keystore_password <- input "Enter the keystore password: " ;;
  jfile <- open_r (DEP_DIR +:+ "/docker-compose-template.j2") ;;
  text <- file_read jfile ;;
  compose_template <- make_template text ;;
  file <- open_w (DEP_DIR +:+ "/" +:+ deployment_name
                  +:+ "/docker-compose.yaml") ;;
  rendered <- template_render compose_template
                [ ("HTTPS_PORT_BIND", https_port);
                  ("KEYSTORE_PASSWORD", keystore_password);
                  ("PKI_NAME", pki_name);
                  ("DOMAIN_NAME", domain_name) ] ;;
  file_write file rendered ;;;
  file <- open_w (DEP_DIR +:+ "/" +:+ deployment_name +:+ "/host_additions") ;;
  file_write file ("127.0.0.1    " +:+ domain_name) ;;;
  print ("Done generating the deployment " +:+ deployment_name).

Definition is_KeyboardInterrupt (e : exn) : bool :=
  match e with KeyboardInterrupt => true | _ => false end.

Definition is_CalledProcessError (e : exn) : bool :=
  match e with CalledProcessError _ => true | _ => false end.

(** The body of the [except KeyboardInterrupt] clause of
    [_start_deployment]. *)
Definition remove_hosts_entry (hosts_entry : string) : M unit :=
  hosts <- open_r "/etc/hosts" ;;
  temp_hosts <- open_w "/etc/hosts.tmp" ;;
  lines <- file_lines hosts ;;
  for_each lines (fun line =>
    when (negb (contains hosts_entry line)) (file_write temp_hosts line)) ;;;
  subprocess_run ["mv"; "/etc/hosts.tmp"; "/etc/hosts"] None true.

(** The initial value [#(fj)] of [hosts_entry] is overwritten before it
    is read and is left out. *)
Definition _start_deployment (deployment_name : string) : M unit :=
  print ("Starting the deployment " +:+ deployment_name) ;;;
  let working_dir := path_join DEP_DIR deployment_name in
  found <- os_path_exists working_dir ;;
  when (negb found) (print "Provided deployment does not exists") ;;;
  _check_files [ working_dir +:+ "/docker-compose.yaml";
                 working_dir +:+ "/host_additions" ] ;;;
  host_additions <- open_r (working_dir +:+ "/host_additions") ;;
  hosts_entry <- file_read host_additions ;;
  hosts <- open_a "/etc/hosts" ;;
  file_write hosts (nl +:+ hosts_entry) ;;;
  try_except
    (subprocess_run ["docker-compose"; "up"] (Some working_dir) true)
    is_KeyboardInterrupt
    (remove_hosts_entry hosts_entry) ;;;
  print ("Done starting the deployment " +:+ deployment_name).

Definition openssl_decrypt_aes256 (key : string) : list string :=
  [ "openssl"; "enc"; "-in"; "git-crypt-key.enc"; "-out"; "git-crypt-key";
    "-d"; "-aes256"; "-pass"; "pass:" +:+ key; "-pbkdf2" ].

Definition _git_crypt_unlock (key : string) : M unit :=
  print "Unlocking the repository..." ;;;
  try_except
    (subprocess_run (openssl_decrypt_aes256 key) None true ;;;
     subprocess_run ["git-crypt"; "unlock"; "./git-crypt-key"] None false)
    is_CalledProcessError
    (subprocess_run ["rm"; "git-crypt-key"] None false ;;;
     print "Error: Unlocking failed").

(** Truth value of an optional [str] argument: [None] and the empty
    string are false. *)
Definition truthy (o : option string) : bool :=
  match o with
  | Some s => negb (is_empty s)
  | None => false
  end.

Definition _handle_cli_arguments (args : Namespace) : M unit :=
  when (truthy (pki_init args))
    (_generate_root_certs (default EmptyString (pki_init args))) ;;;
  match create_server_cert args with
  | Some (pki_name, server_domain) =>
      _generate_server_certs pki_name server_domain
  | None => ret tt
  end ;;;
  match create_deployment args with
  | Some (deployment_name, https_port, pki_name, domain_name) =>
      _generate_deployment deployment_name https_port pki_name domain_name
  | None => ret tt
  end ;;;
  when (truthy (start_deployment args))
    (_start_deployment (default EmptyString (start_deployment args))) ;;;
  when (truthy (unlock args))
    (_git_crypt_unlock (default EmptyString (unlock args))).

Definition sys_argv : M (list string) := fun w => (Returned (argv w), w).

Definition print_help : M unit :=
  fun w => (Returned tt, emit_err format_help w).

Definition parser_parse_args : M Namespace :=
  args <- sys_argv ;;
  match parse_args (tail args) with
  | inl ns => ret ns
  | inr code => sys_exit code
  end.

Definition handle_cli_arguments : M unit :=
  args <- parser_parse_args ;;
  _handle_cli_arguments args ;;;
  args_given <- sys_argv ;;
  when (Nat.eqb (length args_given) 1)
    (print_help ;;;
     sys_exit 1).

Definition main : M unit :=
  root <- executed_as_root ;;
  when (negb root)
    (print "This script must be running as root." ;;;
     sys_exit 1) ;;;
  handle_cli_arguments.

End Script.

(** ** A concrete environment

    A small stand-in for the external programs, used to run the script
    on concrete inputs: openssl writes a placeholder at each [-out] and
    [-keyout] operand, keytool writes [keystore.jks], git-crypt does
    nothing, and docker-compose ends the way [compose_status] says. *)

Fixpoint flag_values (flags : list string) (args : list string)
  : list string :=
  match args with
  | [] => []
  | a :: rest =>
      match rest with
      | v :: _ =>
          if bool_decide (a ∈ flags) then v :: flag_values flags rest
          else flag_values flags rest
      | [] => []
      end
  end.

Definition put_file (k : list string) (c : string) (t : tree) : tree :=
  if is_dir t k then t else <[k := File c]> t.

Definition demo_toolkit (compose_status : status) (seed : nat)
    (args : list string) (d : list string) (t : tree) : status * tree :=
  match args with
  | prog :: _ =>
      if String.eqb prog "openssl" then
        (Exited 0,
         foldr (fun v acc => put_file (d ++ [v]) "generated by openssl" acc) t
           (flag_values ["-out"; "-keyout"] args))
      else if String.eqb prog "keytool" then
        if is_dir t (d ++ ["keystore.jks"]) then (Exited 1, t)
        else (Exited 0, <[d ++ ["keystore.jks"] := File "jks keystore"]> t)
      else if String.eqb prog "docker-compose" then (compose_status, t)
      else (Exited 0, t)
  | [] => (NotInstalled, t)
  end.

Definition demo_render (t : string) (kw : list (string * string)) : string :=
  t +:+ concat_strings (map (fun kv => kv.1 +:+ "=" +:+ kv.2 +:+ ";") kw).

Fixpoint demo_parse (fuel : nat) (args : list string) (ns : Namespace)
  : Namespace + nat :=
  match fuel with
  | O => inr 2
  | S fuel' =>
      match args with
      | [] => inl ns
      | flag :: rest =>
          if String.eqb flag "--pki-init" then
            match rest with
            | a :: rest' =>
                demo_parse fuel' rest'
                  (mkNamespace (Some a) (create_server_cert ns)
                     (create_deployment ns) (start_deployment ns) (unlock ns))
            | _ => inr 2
            end
          else if String.eqb flag "--create-server-cert" then
            match rest with
            | a :: b :: rest' =>
                demo_parse fuel' rest'
                  (mkNamespace (pki_init ns) (Some (a, b))
                     (create_deployment ns) (start_deployment ns) (unlock ns))
            | _ => inr 2
            end
          else if String.eqb flag "--create-deployment" then
            match rest with
            | a :: b :: c :: d :: rest' =>
                demo_parse fuel' rest'
                  (mkNamespace (pki_init ns) (create_server_cert ns)
                     (Some (a, b, c, d)) (start_deployment ns) (unlock ns))
            | _ => inr 2
            end
          else if String.eqb flag "--start-deployment" then
            match rest with
            | a :: rest' =>
                demo_parse fuel' rest'
                  (mkNamespace (pki_init ns) (create_server_cert ns)
                     (create_deployment ns) (Some a) (unlock ns))
            | _ => inr 2
            end
          else if String.eqb flag "--unlock" then
            match rest with
            | a :: rest' =>
                demo_parse fuel' rest'
                  (mkNamespace (pki_init ns) (create_server_cert ns)
                     (create_deployment ns) (start_deployment ns) (Some a))
            | _ => inr 2
            end
          else inr 2
      end
  end.

Definition no_arguments : Namespace := mkNamespace None None None None None.

Definition demo_env (compose_status : status) : Environment := {|
  toolkit := demo_toolkit compose_status;
  Template := string;
  jinja2_Template := Some;
  jinja2_render := fun t kw => Some (demo_render t kw);
  parse_args := fun args => demo_parse (S (length args)) args no_arguments;
  format_help := "usage: pki_playground.py [-h] ..."
|}.

(** Programs that leave the tree alone and end the way [script] says for
    the number of processes launched before them and their argument
    vector; templates and parser as in [demo_env]. *)
Definition scripted_env (script : nat -> list string -> status)
  : Environment := {|
  toolkit := fun seed args _ t => (script seed args, t);
  Template := string;
  jinja2_Template := Some;
  jinja2_render := fun t kw => Some (demo_render t kw);
  parse_args := fun args => demo_parse (S (length args)) args no_arguments;
  format_help := "usage: pki_playground.py [-h] ..."
|}.

(** Three scripts: openssl fails with status 1; git-crypt fails with
    status 1; the first process launched ends with status 0 and the
    later ones are interrupted. *)
Definition openssl_fails (seed : nat) (args : list string) : status :=
  match args with
  | prog :: _ => if String.eqb prog "openssl" then Exited 1 else Exited 0
  | [] => NotInstalled
  end.

Definition git_crypt_fails (seed : nat) (args : list string) : status :=
  match args with
  | prog :: _ => if String.eqb prog "git-crypt" then Exited 1 else Exited 0
  | [] => NotInstalled
  end.


(** A checkout of the repository at [/repo], with the three templates
    and an [/etc/hosts] holding one line. *)
Definition demo_tree : tree :=
  list_to_map
    [ (["etc"], Dir);
      (["etc"; "hosts"], File ("127.0.0.1 localhost" +:+ nl));
      (["repo"], Dir);
      (["repo"; "pkis"], Dir);
      (["repo"; "pkis"; "csr_template.j2"], File "[req] CN=");
      (["repo"; "pkis"; "cert_template.j2"], File "[alt_names] DNS.1=");
      (["repo"; "deployments"], Dir);
      (["repo"; "deployments"; "docker-compose-template.j2"],
       File "services: ") ].

Definition demo_world (uid : nat) (args : list string) (typed : list string)
  : World :=
  mkWorld demo_tree ["repo"] uid ("pki_playground.py" :: args) typed [] [] [].

(** The demo checkout after [--pki-init example], after issuance for
    [svc.example.com], and after provisioning the deployment [web]. *)
Definition bootstrapped_world (typed : list string) : World :=
  (@_generate_root_certs (demo_env (Exited 0)) "example"
     (demo_world 0 [] typed)).2.

Definition issued_world (typed : list string) : World :=
  (@_generate_server_certs (demo_env (Exited 0)) "example" "svc.example.com"
     (bootstrapped_world typed)).2.

Definition provisioned_world (typed : list string) : World :=
  (@_generate_deployment (demo_env (Exited 0)) "web" "8443" "example"
     "svc.example.com" (demo_world 0 [] typed)).2.

(** A checkout whose PKI directory exists but holds no root file. *)
Definition hollow_pki_world : World :=
  with_fs (<[["repo"; "pkis"; "example"] := Dir]> demo_tree)
    (demo_world 0 [] []).

(** ** Auxiliary notions used in the statements *)





(** A tree [t'] keeps the directories of [t]; two trees have the same
    directories. *)
Definition dirs_kept (t t' : tree) : Prop :=
  forall p, is_dir t p = true -> is_dir t' p = true.

Definition same_dirs (t t' : tree) : Prop :=
  forall p, is_dir t p = is_dir t' p.

(** The directory in which the files of a leaf certificate are made. *)
Definition issuance_directory (pki_name server_domain : string) : string :=
  "./" +:+ path_join (path_join (path_join PKI_DIR pki_name) "servers")
             server_domain.

(** The operand that follows the first occurrence of an option. *)
Fixpoint option_value (opt : string) (args : list string) : option string :=
  match args with
  | [] => None
  | a :: rest => if String.eqb a opt then head rest else option_value opt rest
  end.

Definition digit_value (c : ascii) : option nat :=
  let n := nat_of_ascii c in
  if (48 <=? n) && (n <=? 57) then Some (n - 48) else None.

Fixpoint decimal_value (acc : nat) (s : string) : option nat :=
  match s with
  | EmptyString => Some acc
  | String c rest =>
      match digit_value c with
      | Some d => decimal_value (10 * acc + d) rest
      | None => None
      end
  end.

(** The validity window an openssl command line asks for. *)
Definition days_of (args : list string) : option nat :=
  match option_value "-days" args with
  | Some v => if is_empty v then None else decimal_value 0 v
  | None => None
  end.

Definition validity_shorter (leaf root : list string) : Prop :=
  match days_of leaf, days_of root with
  | Some l, Some r => l < r
  | _, _ => False
  end.

(** Steps that touch neither the working directory nor the pending
    input nor the log of launched processes. *)
Definition quiet (w w' : World) : Prop :=
  cwd w' = cwd w /\ stdin w' = stdin w /\ calls w' = calls w.

(** The directory in which [subprocess.run] launches a child. *)
Definition launch_dir (dir : option string) (w : World) (d : list string)
  : Prop :=
  match dir with
  | Some p => resolve (fs w) (cwd w) p = Some d /\ is_dir (fs w) d = true
  | None => d = cwd w
  end.

(** What the statements below assume of the external programs. *)
Section Contracts.
Context {env : Environment}.

(** openssl creates and overwrites files; it removes no directory. *)
Definition openssl_keeps_dirs : Prop :=
  forall seed args d t st t',
    toolkit seed ("openssl" :: args) d t = (st, t') -> dirs_kept t t'.


End Contracts.

(** The operations of the command line, with their place in the order
    of [_handle_cli_arguments]. *)
Section Dispatch.
Context {env : Environment}.

Inductive operation : Type :=
| Bootstrap (pki_name : string)
| Issue (pki_name server_domain : string)
| Provision (deployment_name https_port pki_name domain_name : string)
| Activate (deployment_name : string)
| Unlock (key : string).

Definition rank (o : operation) : nat :=
  match o with
  | Bootstrap _ => 0
  | Issue _ _ => 1
  | Provision _ _ _ _ => 2
  | Activate _ => 3
  | Unlock _ => 4
  end.

Definition perform (o : operation) : M unit :=
  match o with
  | Bootstrap pki_name => _generate_root_certs pki_name
  | Issue pki_name server_domain =>
      _generate_server_certs pki_name server_domain
  | Provision deployment_name https_port pki_name domain_name =>
      _generate_deployment deployment_name https_port pki_name domain_name
  | Activate deployment_name => _start_deployment deployment_name
  | Unlock key => _git_crypt_unlock key
  end.

(** The operations a parsed command line asks for. *)
Definition requested (args : Namespace) : list operation :=
  (if truthy (pki_init args)
   then [Bootstrap (default EmptyString (pki_init args))] else []) ++
  (match create_server_cert args with
   | Some (pki_name, server_domain) => [Issue pki_name server_domain]
   | None => []
   end) ++
  (match create_deployment args with
   | Some (deployment_name, https_port, pki_name, domain_name) =>
       [Provision deployment_name https_port pki_name domain_name]
   | None => []
   end) ++
  (if truthy (start_deployment args)
   then [Activate (default EmptyString (start_deployment args))] else []) ++
  (if truthy (unlock args)
   then [Unlock (default EmptyString (unlock args))] else []).

(** Running a list of operations one after the other, stopping at the
    first that raises, and recording which ones were started. *)
Fixpoint run_logged (ops : list operation) (w : World)
  : list operation * (outcome unit * World) :=
  match ops with
  | [] => ([], (Returned tt, w))
  | o :: rest =>
      match perform o w with
      | (Returned _, w') =>
          let r := run_logged rest w' in (o :: r.1, r.2)
      | (Raised e, w') => ([o], (Raised e, w'))
      end
  end.

End Dispatch.

(** * Properties *)

#[local] Arguments String.append !_ _ / : simpl nomatch.

(** ** Text *)




















(** ** Paths and trees *)

Lemma components_nonempty (s : string) : components s <> [].
Proof.
  destruct s as [|c s]; simpl; [done |].
  destruct (Ascii.eqb c SLASH); [done |]. by destruct (components s).
Qed.

Lemma components_append_slash (a b : string) :
  components (a +:+ String SLASH b) = components a ++ components b.
Proof.
  induction a as [|c a IH]; simpl.
  - done.
  - rewrite IH. destruct (Ascii.eqb c SLASH); [done |].
    pose proof (components_nonempty a).
    destruct (components a); done.
Qed.

Lemma walk_app (t : tree) (cur : list string) (l1 l2 : list string) :
  walk t cur (l1 ++ l2) =
  match walk t cur l1 with
  | Some k => walk t k l2
  | None => None
  end.
Proof.
  revert cur. induction l1 as [|c l1 IH]; intros cur; simpl; [done |].
  destruct (is_dir t cur); [apply IH | done].
Qed.


Lemma walk_same_dirs (t t' : tree) (cur comps : list string) :
  same_dirs t t' -> walk t cur comps = walk t' cur comps.
Proof.
  intros Hs. revert cur. induction comps as [|c comps IH]; intros cur; simpl;
    [done |].
  rewrite <- (Hs cur). destruct (is_dir t cur); [apply IH | done].
Qed.

Lemma resolve_same_dirs (t t' : tree) (d : list string) (p : string) :
  same_dirs t t' -> resolve t d p = resolve t' d p.
Proof.
  intros Hs. unfold resolve. destruct (is_empty p); [done |].
  by apply walk_same_dirs.
Qed.



Lemma same_dirs_kept (t t' : tree) : same_dirs t t' -> dirs_kept t t'.
Proof. intros H p. by rewrite H. Qed.

Lemma dirs_kept_trans (t1 t2 t3 : tree) :
  dirs_kept t1 t2 -> dirs_kept t2 t3 -> dirs_kept t1 t3.
Proof. intros H1 H2 p Hp. auto. Qed.

Lemma is_dir_insert_dir (t : tree) (k : list string) :
  is_dir (<[k := Dir]> t) k = true.
Proof. destruct k; simpl; [done |]. by rewrite lookup_insert_eq. Qed.

Lemma dirs_kept_insert_dir (t : tree) (k : list string) :
  dirs_kept t (<[k := Dir]> t).
Proof.
  intros p Hp. destruct (decide (k = p)) as [->|Hne].
  - apply is_dir_insert_dir.
  - destruct p; [done |]. simpl in *. by rewrite lookup_insert_ne.
Qed.

Lemma same_dirs_insert_file (t : tree) (k : list string) (c : string) :
  is_dir t k = false -> same_dirs t (<[k := File c]> t).
Proof.
  intros Hk p. destruct (decide (k = p)) as [->|Hne].
  - rewrite Hk. destruct p; [done |]. simpl. by rewrite lookup_insert_eq.
  - destruct p; [done |]. simpl. by rewrite lookup_insert_ne.
Qed.

Lemma is_file_not_dir (t : tree) (k : list string) :
  is_file t k = true -> is_dir t k = false.
Proof.
  destruct k; simpl; [done |].
  destruct (t !! _) as [[|c]|]; done.
Qed.


Lemma is_dir_present (t : tree) (k : list string) :
  is_dir t k = true -> present t k = true.
Proof. destruct k; simpl; [done |]. destruct (t !! _) as [[|c]|]; done. Qed.

(** A directory made by [os.mkdir] is found by [os.path.exists] for as
    long as directories are kept. *)
Lemma walk_after_mkdir (t t' : tree) (cur comps k : list string) :
  dirs_kept t t' -> is_dir t' k = true ->
  walk t cur (drop_trailing_empty comps) = Some k ->
  walk t' cur comps = Some k.
Proof.
  intros Hk Hd. revert cur.
  induction comps as [|c comps IH]; intros cur; simpl; [done |].
  destruct (drop_trailing_empty comps) as [|c' r] eqn:Hdrop.
  - destruct (is_empty c) eqn:Hc; simpl.
    + intros [= ->]. rewrite Hd.
      unfold step_into. rewrite Hc. apply IH. done.
    + destruct (is_dir t cur) eqn:Hcur; [| done].
      intros [= <-]. rewrite (Hk _ Hcur). apply IH. done.
  - simpl. destruct (is_dir t cur) eqn:Hcur; [| done].
    rewrite (Hk _ Hcur). apply IH.
Qed.

Lemma exists_after_mkdir (t t' : tree) (d k : list string) (p : string) :
  dirs_kept t t' -> is_dir t' k = true ->
  resolve_new t d p = Some k -> exists_in t' d p = true.
Proof.
  unfold resolve_new, exists_in, resolve. intros Hk Hd.
  destruct (is_empty p); [done |]. intros Hw.
  rewrite (walk_after_mkdir t t' _ _ k Hk Hd Hw).
  by apply is_dir_present.
Qed.

(** ** Control flow *)

Lemma bind_inv_returned {A B} (m : M A) (k : A -> M B) (w w' : World) (b : B) :
  bind m k w = (Returned b, w') ->
  exists a w1, m w = (Returned a, w1) /\ k a w1 = (Returned b, w').
Proof.
  unfold bind. destruct (m w) as [[a|e] w1]; [eauto | done].
Qed.

Lemma bind_returned {A B} (m : M A) (k : A -> M B) (w w1 : World) (a : A) :
  m w = (Returned a, w1) -> bind m k w = k a w1.
Proof. unfold bind. by intros ->. Qed.


Ltac bind_inv H a H1 :=
  let w1 := fresh "w" in
  apply bind_inv_returned in H as (a & w1 & H1 & H).

Ltac pure_inv H := inversion H; subst; clear H.

Ltac wsimpl :=
  cbn [fs cwd euid argv stdin stdout stderr calls
       emit emit_err with_fs with_stdin log_call] in *.

Lemma when_inv (b : bool) (m : M unit) (w w' : World) (u : unit) :
  when b m w = (Returned u, w') ->
  (b = false /\ w' = w) \/ (b = true /\ m w = (Returned u, w')).
Proof.
  destruct b; simpl; [by right |]. unfold ret. intros [= <-]. by left.
Qed.

(** ** Primitives *)

Lemma os_mkdir_inv (p : string) (w w' : World) (u : unit) :
  os_mkdir p w = (Returned u, w') ->
  exists k, resolve_new (fs w) (cwd w) p = Some k /\
            present (fs w) k = false /\
            w' = with_fs (<[k := Dir]> (fs w)) w.
Proof.
  unfold os_mkdir. destruct (resolve_new _ _ _) as [k|]; [| done].
  destruct (present (fs w) k) eqn:Hp; [done |].
  intros [= <-]. eauto.
Qed.

Lemma open_r_inv (p : string) (w w' : World) (k : list string) :
  open_r p w = (Returned k, w') ->
  w' = w /\ resolve (fs w) (cwd w) p = Some k /\ is_file (fs w) k = true.
Proof.
  unfold open_r. destruct (resolve _ _ _) as [k'|]; [| done].
  destruct (is_file (fs w) k') eqn:Hf; [| done].
  by intros [= -> ->].
Qed.

Lemma open_w_inv (p : string) (w w' : World) (k : list string) :
  open_w p w = (Returned k, w') ->
  resolve (fs w) (cwd w) p = Some k /\ is_dir (fs w) k = false /\
  w' = with_fs (<[k := File EmptyString]> (fs w)) w.
Proof.
  unfold open_w. destruct (resolve _ _ _) as [k'|]; [| done].
  destruct (is_dir (fs w) k') eqn:Hd; [done |].
  by intros [= -> <-].
Qed.

Lemma input_inv (prompt : string) (w w' : World) (l : string) :
  input prompt w = (Returned l, w') ->
  exists rest, stdin w = l :: rest /\ w' = with_stdin rest (emit prompt w).
Proof.
  unfold input. simpl. destruct (stdin w) as [|x rest]; [done |].
  intros [= -> <-]. eauto.
Qed.

Lemma when_mkdir_quiet (b : bool) (p : string) (w w' : World) (u : unit) :
  when b (os_mkdir p) w = (Returned u, w') -> quiet w w'.
Proof.
  intros [[_ ->]|[_ H]]%when_inv; [done |].
  by apply os_mkdir_inv in H as (k & _ & _ & ->).
Qed.

Lemma when_mkdir_print_quiet (b : bool) (p s : string) (w w' : World)
    (u : unit) :
  when b (os_mkdir p ;;; print s) w = (Returned u, w') -> quiet w w'.
Proof.
  intros [[_ ->]|[_ H]]%when_inv; [done |].
  bind_inv H u1 H1. apply os_mkdir_inv in H1 as (k & _ & _ & ->).
  by pure_inv H.
Qed.

Section Properties.
Context {env : Environment}.

Lemma subprocess_run_inv (args : list string) (dir : option string)
    (w w' : World) (u : unit) :
  subprocess_run args dir true w = (Returned u, w') ->
  exists d t,
    launch_dir dir w d /\
    run_program (length (calls w)) args d (fs w) = (Exited 0, t) /\
    w' = log_call (args, dir) (with_fs t w).
Proof.
  unfold subprocess_run, launch_dir. intros H. destruct u.
  destruct dir as [p|].
  - destruct (resolve _ _ _) as [k|] eqn:Hr; [| done].
    destruct (is_dir (fs w) k) eqn:Hd; [| done].
    destruct (run_program _ _ _ _) as [[code| |] t] eqn:Hrun; try done.
    destruct code as [|code]; simpl in H; [| done].
    injection H as <-. by exists k, t.
  - destruct (run_program _ _ _ _) as [[code| |] t] eqn:Hrun; try done.
    destruct code as [|code]; simpl in H; [| done].
    injection H as <-. by exists (cwd w), t.
Qed.

Lemma make_template_inv (text : string) (w w' : World) (t : Template) :
  make_template text w = (Returned t, w') ->
  w' = w /\ jinja2_Template text = Some t.
Proof.
  unfold make_template. destruct (jinja2_Template text); [| done].
  by intros [= -> ->].
Qed.

Lemma template_render_inv (t : Template) (kw : list (string * string))
    (w w' : World) (s : string) :
  template_render t kw w = (Returned s, w') ->
  w' = w /\ jinja2_render t kw = Some s.
Proof.
  unfold template_render. destruct (jinja2_render t kw); [| done].
  by intros [= -> ->].
Qed.

(** [_check_files] stops at the first path that is no regular file. *)
Lemma check_files_spec (files : list string) (w : World) :
  _check_files files w =
  match List.find (fun f => negb (isfile_in (fs w) (cwd w) f)) files with
  | None => (Returned tt, w)
  | Some f =>
      (Raised (SystemExit 1),
       emit (("Error: missing file " +:+ f +:+ "!") +:+ nl) w)
  end.
Proof.
  unfold _check_files. induction files as [|f files IH]; [done |].
  cbn [for_each List.find]. unfold bind at 1 2, os_path_isfile at 1.
  destruct (isfile_in (fs w) (cwd w) f); simpl.
  - apply IH.
  - done.
Qed.

Lemma check_files_returned (files : list string) (w w' : World) (u : unit) :
  _check_files files w = (Returned u, w') ->
  w' = w /\ Forall (fun f => isfile_in (fs w) (cwd w) f = true) files.
Proof.
  rewrite check_files_spec.
  destruct (List.find _ files) as [f|] eqn:Hf; [done |].
  intros [= <-]. split; [done |].
  apply Forall_forall. intros f Hin. apply list_elem_of_In in Hin.
  apply (List.find_none _ _ Hf) in Hin.
  by destruct (isfile_in _ _ f).
Qed.

(** ** C9: the root check *)

(** C9. When the effective user id is not 0, [main] prints the error
    and raises [SystemExit(1)]; the world it leaves differs from the
    initial one by that one line on standard output, whatever the
    argument parser and the external programs would have done: no
    argument is parsed, no process is launched and the tree is
    untouched. *)
Theorem main_refuses_non_root (w : World) :
  euid w <> 0 ->
  main w =
    (Raised (SystemExit 1),
     emit ("This script must be running as root." +:+ nl) w) /\
  fs (main w).2 = fs w /\ calls (main w).2 = calls w /\
  stderr (main w).2 = stderr w.
Proof.
  intros Hne.
  assert (main w =
    (Raised (SystemExit 1),
     emit ("This script must be running as root." +:+ nl) w)) as Hmain.
  { unfold main, executed_as_root, os_geteuid, bind, ret. simpl.
    destruct (Nat.eqb_spec (euid w) 0) as [Heq|_]; [done |]. done. }
  rewrite Hmain. done.
Qed.

(** ** C3: issuance without the root artifacts *)

(** C3 (amended). If one of the four root files of the PKI is no regular
    file, issuance raises [SystemExit(1)] and leaves a world that differs
    from the initial one by a single line on standard output, so that
    nothing is written to the tree and no process is launched.  The line
    reports the missing PKI directory when there is none, and otherwise
    names the first absent file in the order of the check, and only that
    one. *)
Theorem issuance_without_trust_anchor
    (pki_name server_domain : string) (w : World) :
  (exists f, f ∈ required_root_files pki_name /\
             isfile_in (fs w) (cwd w) f = false) ->
  exists line,
    _generate_server_certs pki_name server_domain w =
      (Raised (SystemExit 1), emit line w) /\
    ((exists_in (fs w) (cwd w) (path_join PKI_DIR pki_name) = false /\
      line = ("Error: PKI directory with the name of " +:+ pki_name
              +:+ " does not exist") +:+ nl) \/
     (exists_in (fs w) (cwd w) (path_join PKI_DIR pki_name) = true /\
      exists f,
        List.find (fun f => negb (isfile_in (fs w) (cwd w) f))
          (required_root_files pki_name) = Some f /\
        line = ("Error: missing file " +:+ f +:+ "!") +:+ nl)).
Proof.
  intros (f & Hin & Hf).
  unfold _generate_server_certs. cbv zeta.
  unfold bind at 1. unfold os_path_exists at 1.
  destruct (exists_in (fs w) (cwd w) (path_join PKI_DIR pki_name)) eqn:Hex.
  - cbn [negb when]. unfold bind at 1, ret at 1.
    unfold bind at 1. rewrite check_files_spec.
    destruct (List.find _ (required_root_files pki_name)) as [g|] eqn:Hfind.
    + eexists. split; [reflexivity |]. right. split; [done |]. by exists g.
    + apply list_elem_of_In in Hin.
      apply (List.find_none _ _ Hfind) in Hin. by rewrite Hf in Hin.
  - cbn [negb when]. unfold bind at 1. unfold bind at 1.
    unfold print at 1, sys_exit, raise.
    eexists. split; [reflexivity |]. left. done.
Qed.

Lemma run_openssl (seed : nat) (args : list string) (d : list string)
    (t t' : tree) (st : status) :
  openssl_keeps_dirs ->
  run_program seed ("openssl" :: args) d t = (st, t') -> dirs_kept t t'.
Proof. intros Hssl H. by apply (Hssl seed args d t st t'). Qed.

Lemma bootstrap_existing (pki_name : string) (w : World) :
  exists_in (fs w) (cwd w) ("./" +:+ path_join PKI_DIR pki_name) = true ->
  _generate_root_certs pki_name w =
    (Raised (SystemExit 1),
     emit (("Error: PKI with the name " +:+ pki_name +:+ " already exists") +:+ nl)
       (emit (("Generating root certificates at "
               +:+ "./" +:+ path_join PKI_DIR pki_name) +:+ nl) w)).
Proof.
  intros Hex. unfold _generate_root_certs. cbv zeta.
  unfold bind at 1. unfold print at 1.
  unfold bind at 1. unfold os_path_exists at 1.
  cbn [fs cwd emit]. rewrite Hex. cbn [negb].
  unfold bind at 1. unfold bind at 1. unfold print at 1. done.
Qed.

Lemma bootstrap_returned (pki_name : string) (w w1 : World) :
  openssl_keeps_dirs ->
  _generate_root_certs pki_name w = (Returned tt, w1) ->
  cwd w1 = cwd w /\
  exists_in (fs w1) (cwd w1) ("./" +:+ path_join PKI_DIR pki_name) = true.
Proof.
  intros Hssl H. unfold _generate_root_certs in H. cbv zeta in H.
  set (wd := "./" +:+ path_join PKI_DIR pki_name) in *.
  bind_inv H u1 H1. pure_inv H1.
  bind_inv H found H1. pure_inv H1.
  bind_inv H u2 H1.
  destruct (negb _) eqn:Hfound.
  2:{ bind_inv H1 u3 H2. done. }
  apply os_mkdir_inv in H1 as (k & Hk & Hnew & ->). wsimpl.
  bind_inv H u3 H1.
  apply subprocess_run_inv in H1 as (d1 & t1 & Hd1 & Hrun1 & ->). wsimpl.
  apply (run_openssl _ _ _ _ _ _ Hssl) in Hrun1.
  bind_inv H u4 H1.
  apply subprocess_run_inv in H1 as (d2 & t2 & Hd2 & Hrun2 & ->). wsimpl.
  apply (run_openssl _ _ _ _ _ _ Hssl) in Hrun2.
  bind_inv H jfile H1. apply open_r_inv in H1 as (-> & _ & _). wsimpl.
  bind_inv H text H1. pure_inv H1. wsimpl.
  bind_inv H template H1. apply make_template_inv in H1 as (-> & _).
  bind_inv H file H1. apply open_w_inv in H1 as (_ & Hfile & ->). wsimpl.
  bind_inv H rendered H1. apply template_render_inv in H1 as (-> & _).
  bind_inv H u5 H1. pure_inv H1. wsimpl.
  bind_inv H u6 H1.
  apply subprocess_run_inv in H1 as (d3 & t3 & Hd3 & Hrun3 & ->). wsimpl.
  apply (run_openssl _ _ _ _ _ _ Hssl) in Hrun3.
  pure_inv H. wsimpl. split; [done |].
  assert (same_dirs t2 (<[file := File EmptyString]> t2)) as Hs1
    by (by apply same_dirs_insert_file).
  match type of Hrun3 with dirs_kept ?t _ =>
    assert (same_dirs (<[file := File EmptyString]> t2) t) as Hs2
      by (apply same_dirs_insert_file; by rewrite <- Hs1)
  end.
  assert (dirs_kept (<[k := Dir]> (fs w)) t3) as Hkept.
  { eapply dirs_kept_trans; [exact Hrun1 |].
    eapply dirs_kept_trans; [exact Hrun2 |].
    eapply dirs_kept_trans; [apply same_dirs_kept, Hs1 |].
    eapply dirs_kept_trans; [apply same_dirs_kept, Hs2 |]. exact Hrun3. }
  apply (exists_after_mkdir (fs w) t3 (cwd w) k wd); [| | done].
  - eapply dirs_kept_trans; [apply dirs_kept_insert_dir | exact Hkept].
  - apply Hkept, is_dir_insert_dir.
Qed.

(** ** C4: bootstrapping twice *)

(** C4. After a bootstrap that returned normally, a second bootstrap of
    the same PKI name raises [SystemExit(1)] once it has printed the
    error; the tree and the log of launched processes are those the
    first bootstrap left, so that no cryptographic step and no write
    happened and the first artifacts are unchanged.  (openssl is assumed
    to remove no directory.) *)
Theorem bootstrap_twice_fails (pki_name : string) (w w1 : World) :
  openssl_keeps_dirs ->
  _generate_root_certs pki_name w = (Returned tt, w1) ->
  exists w2,
    _generate_root_certs pki_name w1 = (Raised (SystemExit 1), w2) /\
    fs w2 = fs w1 /\
    calls w2 = calls w1 /\
    stdout w2 =
      stdout w1 ++
      [ ("Generating root certificates at "
         +:+ "./" +:+ path_join PKI_DIR pki_name) +:+ nl;
        ("Error: PKI with the name " +:+ pki_name +:+ " already exists")
         +:+ nl ].
Proof.
  intros Hssl H.
  destruct (bootstrap_returned _ _ _ Hssl H) as [_ Hex].
  rewrite (bootstrap_existing _ _ Hex).
  eexists. split; [reflexivity |]. wsimpl.
  by rewrite <- app_assoc.
Qed.

Lemma issuance_returned (pki_name server_domain : string) (w w' : World) :
  _generate_server_certs pki_name server_domain w = (Returned tt, w') ->
  let wd := Some (issuance_directory pki_name server_domain) in
  exists pw rest seed t4 d4 t5 d5,
    stdin w = pw :: rest /\ stdin w' = rest /\ cwd w' = cwd w /\
    calls w' = calls w ++
      [ (openssl_create_ssl pki_name server_domain, wd);
        (openssl_create_pkcs12_keystore pki_name server_domain pw, wd);
        (openssl_convert_to_jks server_domain pw, wd);
        (["rm"; "keystore.pkcs12"], wd) ] /\
    resolve t4 (cwd w) (issuance_directory pki_name server_domain) = Some d4 /\
    is_dir t4 d4 = true /\
    toolkit seed (openssl_convert_to_jks server_domain pw) d4 t4
      = (Exited 0, t5) /\
    resolve t5 (cwd w) (issuance_directory pki_name server_domain) = Some d5 /\
    is_dir t5 d5 = true /\
    coreutils_rm ["keystore.pkcs12"] d5 t5 = (Exited 0, fs w').
Proof.
  intros H. unfold _generate_server_certs in H. cbv zeta in H.
  fold (issuance_directory pki_name server_domain) in H.
  set (wd := issuance_directory pki_name server_domain) in *.
  bind_inv H found H1. pure_inv H1.
  bind_inv H u1 H1.
  apply when_inv in H1 as [[_ ->]|[_ H1]]; [| by bind_inv H1 u H2].
  bind_inv H u2 H1. apply check_files_returned in H1 as [-> _].
  bind_inv H found1 H1. pure_inv H1.
  bind_inv H u3 H1. apply when_mkdir_quiet in H1 as (Hc1 & Hi1 & Hl1).
  bind_inv H found2 H1. pure_inv H1.
  bind_inv H u4 H1. apply when_mkdir_print_quiet in H1 as (Hc2 & Hi2 & Hl2).
  bind_inv H u5 H1. pure_inv H1.
  bind_inv H jfile H1. apply open_r_inv in H1 as (-> & _ & _).
  bind_inv H text H1. pure_inv H1.
  bind_inv H tpl H1. apply make_template_inv in H1 as (-> & _).
  bind_inv H conf H1. apply open_w_inv in H1 as (_ & _ & ->).
  bind_inv H rendered H1. apply template_render_inv in H1 as (-> & _).
  bind_inv H u6 H1. pure_inv H1.
  bind_inv H u7 H1.
  apply subprocess_run_inv in H1 as (d1 & t1 & _ & _ & ->).
  bind_inv H pw H1. apply input_inv in H1 as (rest & Hin & ->).
  bind_inv H u8 H1.
  apply subprocess_run_inv in H1 as (d2 & t2 & _ & _ & ->).
  bind_inv H u9 H1.
  apply subprocess_run_inv in H1 as (d3 & t3 & Hd3 & Hrun3 & ->).
  bind_inv H u10 H1.
  apply subprocess_run_inv in H1 as (d4 & t4 & Hd4 & Hrun4 & ->).
  pure_inv H. unfold launch_dir in Hd3, Hd4. wsimpl.
  destruct Hd3 as [Hr3 Hdir3], Hd4 as [Hr4 Hdir4].
  change (run_program ?n (openssl_convert_to_jks ?a ?b) ?d ?t)
    with (toolkit n (openssl_convert_to_jks a b) d t) in Hrun3.
  change (run_program ?n ["rm"; "keystore.pkcs12"] ?d ?t)
    with (coreutils_rm ["keystore.pkcs12"] d t) in Hrun4.
  rewrite Hc2, Hc1 in *. rewrite Hi2, Hi1 in Hin. rewrite Hl2, Hl1 in *.
  exists pw, rest. eexists _, t2, d3, t3, d4.
  repeat split; try done.
  by rewrite <- !app_assoc.
Qed.

Lemma append_crt_not_days (s : string) :
  String.eqb (s +:+ ".crt") "-days" = false.
Proof.
  apply String.eqb_neq. intros H.
  do 6 (destruct s as [|? s]; simpl in H; [discriminate H |];
        first [discriminate H | injection H as _ H]).
Qed.

Lemma leaf_days (pki_name server_domain : string) :
  days_of (openssl_create_ssl pki_name server_domain) = Some 365.
Proof.
  unfold days_of, openssl_create_ssl. simpl.
  rewrite append_crt_not_days. reflexivity.
Qed.

Lemma root_days (pki_name : string) :
  days_of (openssl_root_command pki_name) = Some 356.
Proof. reflexivity. Qed.

Lemma bootstrap_calls (pki_name : string) (w w1 : World) :
  _generate_root_certs pki_name w = (Returned tt, w1) ->
  let wd := Some ("./" +:+ path_join PKI_DIR pki_name) in
  calls w1 = calls w ++
    [ (openssl_root_command pki_name, wd);
      (openssl_genrsa_command pki_name, wd);
      (openssl_gencsr_command pki_name, wd) ].
Proof.
  intros H. unfold _generate_root_certs in H. cbv zeta in H.
  set (wd := "./" +:+ path_join PKI_DIR pki_name) in *.
  bind_inv H u1 H1. pure_inv H1.
  bind_inv H found H1. pure_inv H1.
  bind_inv H u2 H1.
  destruct (negb _) eqn:Hfound.
  2:{ bind_inv H1 u3 H2. done. }
  apply os_mkdir_inv in H1 as (k & _ & _ & ->).
  bind_inv H u3 H1.
  apply subprocess_run_inv in H1 as (d1 & t1 & _ & _ & ->).
  bind_inv H u4 H1.
  apply subprocess_run_inv in H1 as (d2 & t2 & _ & _ & ->).
  bind_inv H jfile H1. apply open_r_inv in H1 as (-> & _ & _).
  bind_inv H text H1. pure_inv H1.
  bind_inv H template H1. apply make_template_inv in H1 as (-> & _).
  bind_inv H file H1. apply open_w_inv in H1 as (_ & _ & ->).
  bind_inv H rendered H1. apply template_render_inv in H1 as (-> & _).
  bind_inv H u5 H1. pure_inv H1.
  bind_inv H u6 H1.
  apply subprocess_run_inv in H1 as (d3 & t3 & _ & _ & ->).
  pure_inv H. wsimpl. by rewrite <- !app_assoc.
Qed.

(** ** C5: validity windows *)

(** C5 (amended). Every issuance that returns has launched the signing
    command with a fixed validity window of 365 days, whatever the PKI
    and the domain; every bootstrap that returns has launched the root
    command with a fixed window of 356 days.  The window of the leaf
    certificate is therefore not shorter than that of the root
    certificate. *)
Theorem leaf_validity_window
    (pki_name server_domain : string) (w0 w1 w w' : World) :
  _generate_root_certs pki_name w0 = (Returned tt, w1) ->
  _generate_server_certs pki_name server_domain w = (Returned tt, w') ->
  (openssl_root_command pki_name, Some ("./" +:+ path_join PKI_DIR pki_name))
    ∈ calls w1 /\
  (openssl_create_ssl pki_name server_domain,
   Some (issuance_directory pki_name server_domain)) ∈ calls w' /\
  days_of (openssl_create_ssl pki_name server_domain) = Some 365 /\
  days_of (openssl_root_command pki_name) = Some 356 /\
  ~ validity_shorter (openssl_create_ssl pki_name server_domain)
      (openssl_root_command pki_name).
Proof.
  intros Hroot Hleaf.
  apply bootstrap_calls in Hroot.
  apply issuance_returned in Hleaf
    as (pw & rest & seed & t4 & d4 & t5 & d5 & _ & _ & _ & Hcalls & _).
  rewrite Hroot, Hcalls.
  split; [set_solver |]. split; [set_solver |].
  split; [apply leaf_days |]. split; [apply root_days |].
  unfold validity_shorter. rewrite leaf_days, root_days. lia.
Qed.

Lemma resolve_child (t : tree) (d k : list string) (p c : string) :
  resolve t d p = Some k -> is_dir t k = true ->
  components c = [c] -> step_into k c = k ++ [c] ->
  resolve t d (p +:+ String SLASH c) = Some (k ++ [c]).
Proof.
  unfold resolve. intros Hw Hd Hc Hs. destruct p as [|x p]; [done |].
  assert (is_empty (String x p +:+ String SLASH c) = false) as -> by done.
  assert (start_of d (String x p +:+ String SLASH c)
          = start_of d (String x p)) as -> by done.
  change (is_empty (String x p)) with false in Hw. cbv iota in Hw.
  rewrite components_append_slash, walk_app, Hw, Hc.
  cbn [walk]. by rewrite Hd, Hs.
Qed.

Lemma is_file_snoc (t : tree) (d : list string) (c : string) :
  is_file t (d ++ [c]) =
  match t !! (d ++ [c]) with Some (File _) => true | _ => false end.
Proof. by destruct d. Qed.



(** ** C8: the keystore that remains *)


Lemma resolve_last (t : tree) (d k : list string) (p c : string) :
  resolve t d (p +:+ String SLASH c) = Some k ->
  components c = [c] -> (forall kd, step_into kd c = kd ++ [c]) ->
  exists kd, k = kd ++ [c].
Proof.
  unfold resolve. destruct (is_empty _); [done |].
  rewrite components_append_slash, walk_app.
  destruct (walk t _ (components p)) as [kd|]; [| done].
  intros Hw Hc Hs. rewrite Hc in Hw. cbn [walk] in Hw.
  destruct (is_dir t kd); [| done].
  injection Hw as <-. exists kd. apply Hs.
Qed.

Lemma content_at_insert (t : tree) (k : list string) (c : string) :
  content_at (<[k := File c]> t) k = c.
Proof. unfold content_at. by rewrite lookup_insert_eq. Qed.



(** ** C7: the keystore passphrase *)


(** ** C10: the order of the operations *)

Lemma run_logged_cons (o : operation) (rest : list operation) (w : World) :
  (run_logged (o :: rest) w).2 =
  bind (perform o) (fun _ w' => (run_logged rest w').2) w.
Proof.
  cbn [run_logged]. unfold bind.
  by destruct (perform o w) as [[u|e] w'].
Qed.

Lemma run_logged_single (o : operation) (w : World) :
  (run_logged [o] w).2 = perform o w.
Proof.
  cbn [run_logged]. by destruct (perform o w) as [[[]|e] w'].
Qed.

Lemma bind_cont_ext {A B} (m : M A) (k1 k2 : A -> M B) (w : World) :
  (forall a w', k1 a w' = k2 a w') -> bind m k1 w = bind m k2 w.
Proof.
  intros Hk. unfold bind. destruct (m w) as [[a|e] w']; [apply Hk | done].
Qed.

Lemma bind_ret_l {A B} (a : A) (k : A -> M B) (w : World) :
  bind (ret a) k w = k a w.
Proof. done. Qed.


Lemma run_logged_prefix (ops : list operation) (w : World) :
  (run_logged ops w).1 `prefix_of` ops.
Proof.
  revert w. induction ops as [|o ops IH]; intros w; cbn [run_logged].
  - done.
  - destruct (perform o w) as [[u|e] w']; simpl.
    + by apply prefix_cons.
    + by apply prefix_cons, prefix_nil.
Qed.

Lemma requested_sorted (args : Namespace) :
  StronglySorted (fun a b => rank a < rank b) (requested args).
Proof.
  destruct args as [pi [[??]|] [[[[??]?]?]|] sd ul]; unfold requested;
    cbn [pki_init create_server_cert create_deployment start_deployment unlock];
    destruct (truthy pi), (truthy sd), (truthy ul); simpl;
    repeat (constructor; simpl; try lia).
Qed.

Lemma handle_cli_arguments_run (args : Namespace) (w : World) :
  (run_logged (requested args) w).2 = _handle_cli_arguments args w.
Proof.
  destruct args as [pi csc cd sd ul]. unfold requested, _handle_cli_arguments.
  cbn [pki_init create_server_cert create_deployment start_deployment unlock].
  revert w.
  destruct (truthy pi); cbn [when app]; intros w;
    [rewrite run_logged_cons; apply bind_cont_ext; clear w; intros _ w
    | rewrite bind_ret_l].
  all: revert w; destruct csc as [[pki_name server_domain]|];
    cbn [app]; intros w;
    [rewrite run_logged_cons; apply bind_cont_ext; clear w; intros _ w
    | rewrite bind_ret_l].
  all: revert w;
    destruct cd as [[[[deployment_name https_port] pki_name'] domain_name]|];
    cbn [app]; intros w;
    [rewrite run_logged_cons; apply bind_cont_ext; clear w; intros _ w
    | rewrite bind_ret_l].
  all: revert w; destruct (truthy sd); cbn [when app]; intros w;
    [rewrite run_logged_cons; apply bind_cont_ext; clear w; intros _ w
    | rewrite bind_ret_l].
  all: destruct (truthy ul); cbn [when];
    [apply run_logged_single | done].
Qed.

(** C10. The operations [_handle_cli_arguments] starts are the
    requested ones, taken in the order bootstrap, issuance,
    provisioning, activation, unlock, up to the first one that raises:
    running them one after the other gives the outcome of
    [_handle_cli_arguments], and the operations started have strictly
    increasing places in that order, so that each is started at most
    once. *)
Theorem operations_in_fixed_order (args : Namespace) (w : World) :
  (run_logged (requested args) w).2 = _handle_cli_arguments args w /\
  (run_logged (requested args) w).1 `prefix_of` requested args /\
  StronglySorted (fun a b => rank a < rank b)
    (run_logged (requested args) w).1.
Proof.
  split; [apply handle_cli_arguments_run |].
  split; [apply run_logged_prefix |].
  destruct (run_logged_prefix (requested args) w) as [k Hk].
  pose proof (requested_sorted args) as Hs. rewrite Hk in Hs.
  by apply StronglySorted_app_1_l in Hs.
Qed.

(** ** C2: what deregistration leaves behind *)

Lemma with_fs_id (w : World) : with_fs (fs w) w = w.
Proof. by destruct w. Qed.


Lemma resolve_etc_hosts (t : tree) (d : list string) :
  t !! ["etc"] = Some Dir ->
  resolve t d "/etc/hosts" = Some ["etc"; "hosts"].
Proof.
  intros H.
  change (resolve t d "/etc/hosts")
    with (if is_dir t ["etc"] then Some ["etc"; "hosts"] else None).
  cbn [is_dir]. by rewrite H.
Qed.


Lemma open_r_ok (p : string) (k : list string) (w : World) :
  resolve (fs w) (cwd w) p = Some k -> is_file (fs w) k = true ->
  open_r p w = (Returned k, w).
Proof. unfold open_r. by intros -> ->. Qed.

Lemma open_w_ok (p : string) (k : list string) (w : World) :
  resolve (fs w) (cwd w) p = Some k -> is_dir (fs w) k = false ->
  open_w p w = (Returned k, with_fs (<[k := File EmptyString]> (fs w)) w).
Proof. unfold open_w. by intros -> ->. Qed.

Lemma open_a_ok (p : string) (k : list string) (w : World) :
  resolve (fs w) (cwd w) p = Some k -> is_file (fs w) k = true ->
  open_a p w = (Returned k, w).
Proof.
  unfold open_a. intros -> Hf. by rewrite (is_file_not_dir _ _ Hf), Hf.
Qed.



Lemma content_at_lookup (t : tree) (k : list string) (c : string) :
  t !! k = Some (File c) -> content_at t k = c.
Proof. unfold content_at. by intros ->. Qed.




End Properties.

(** * Concrete runs *)

Lemma returned_eta (r : outcome unit * World) :
  r.1 = Returned tt -> r = (Returned tt, r.2).
Proof. destruct r as [o w]. simpl. by intros ->. Qed.

Lemma put_file_same_dirs (k : list string) (c : string) (t : tree) :
  same_dirs t (put_file k c t).
Proof.
  unfold put_file. destruct (is_dir t k) eqn:Hk; [done |].
  by apply same_dirs_insert_file.
Qed.

Lemma demo_openssl_keeps_dirs (compose_status : status) :
  @openssl_keeps_dirs (demo_env compose_status).
Proof.
  intros seed args d t st t' H. cbn in H. injection H as _ <-.
  match goal with |- dirs_kept t (foldr _ t ?l) => generalize l end.
  intros vs. induction vs as [|v vs IH]; cbn [foldr]; [by intros p Hp |].
  eapply dirs_kept_trans; [exact IH |].
  apply same_dirs_kept, put_file_same_dirs.
Qed.


Lemma demo_bootstrap_returns (typed : list string) :
  @_generate_root_certs (demo_env (Exited 0)) "example" (demo_world 0 [] typed)
    = (Returned tt, bootstrapped_world typed).
Proof. apply returned_eta. vm_compute. reflexivity. Qed.

Lemma demo_issuance_returns (pw : string) (rest : list string) :
  @_generate_server_certs (demo_env (Exited 0)) "example" "svc.example.com"
    (bootstrapped_world (pw :: rest))
  = (Returned tt, issued_world (pw :: rest)).
Proof. apply returned_eta. vm_compute. reflexivity. Qed.

Lemma demo_provisioning_returns (pw : string) (rest : list string) :
  @_generate_deployment (demo_env (Exited 0)) "web" "8443" "example"
    "svc.example.com" (demo_world 0 [] (pw :: rest))
  = (Returned tt, provisioned_world (pw :: rest)).
Proof. apply returned_eta. vm_compute. reflexivity. Qed.

(** ** C9 *)

Lemma main_refuses_non_root_witness :
  euid (demo_world 1000 ["--pki-init"; "example"] []) <> 0 /\
  @main (demo_env (Exited 0)) (demo_world 1000 ["--pki-init"; "example"] []) =
    (Raised (SystemExit 1),
     emit ("This script must be running as root." +:+ nl)
       (demo_world 1000 ["--pki-init"; "example"] [])).
Proof.
  assert (euid (demo_world 1000 ["--pki-init"; "example"] []) <> 0) as Hne
    by (simpl; lia).
  split; [exact Hne |].
  exact (proj1 (@main_refuses_non_root (demo_env (Exited 0)) _ Hne)).
Defined.

(** ** C3 *)

Lemma issuance_without_trust_anchor_witness :
  (exists f, f ∈ required_root_files "example" /\
             isfile_in (fs hollow_pki_world) (cwd hollow_pki_world) f = false) /\
  exists line,
    @_generate_server_certs (demo_env (Exited 0)) "example" "svc.example.com"
      hollow_pki_world = (Raised (SystemExit 1), emit line hollow_pki_world).
Proof.
  assert (exists f, f ∈ required_root_files "example" /\
             isfile_in (fs hollow_pki_world) (cwd hollow_pki_world) f = false)
    as Hmissing.
  { exists "./pkis/example/example.crt".
    split; [repeat constructor | vm_compute; reflexivity]. }
  split; [exact Hmissing |].
  destruct (@issuance_without_trust_anchor (demo_env (Exited 0))
              "example" "svc.example.com" hollow_pki_world Hmissing)
    as (line & Hrun & _).
  exists line. exact Hrun.
Defined.

(** C3, as stated, fails: with the four root files absent, the error
    names the first one only. *)
Lemma missing_files_not_all_listed :
  let r := @_generate_server_certs (demo_env (Exited 0)) "example"
             "svc.example.com" hollow_pki_world in
  r.1 = Raised (SystemExit 1) /\
  Forall (fun f => isfile_in (fs hollow_pki_world) (cwd hollow_pki_world) f
                   = false)
    (required_root_files "example") /\
  ~ (forall f, f ∈ required_root_files "example" ->
       isfile_in (fs hollow_pki_world) (cwd hollow_pki_world) f = false ->
       exists line, line ∈ stdout r.2 /\ contains f line = true).
Proof.
  split; [vm_compute; reflexivity |]. split.
  { repeat constructor. }
  intros Hall.
  destruct (Hall "./pkis/example/example.crt") as (line & Hin & Hc).
  - repeat constructor.
  - vm_compute; reflexivity.
  - vm_compute in Hin. apply list_elem_of_In in Hin.
    destruct Hin as [<-|[]]. vm_compute in Hc. discriminate Hc.
Qed.

(** ** C4 *)

Lemma bootstrap_twice_fails_witness :
  @openssl_keeps_dirs (demo_env (Exited 0)) /\
  @_generate_root_certs (demo_env (Exited 0)) "example" (demo_world 0 [] [])
    = (Returned tt, bootstrapped_world []) /\
  exists w2,
    @_generate_root_certs (demo_env (Exited 0)) "example"
      (bootstrapped_world []) = (Raised (SystemExit 1), w2) /\
    fs w2 = fs (bootstrapped_world []) /\
    calls w2 = calls (bootstrapped_world []).
Proof.
  split; [apply demo_openssl_keeps_dirs |].
  split; [apply demo_bootstrap_returns |].
  destruct (@bootstrap_twice_fails (demo_env (Exited 0)) "example" _ _
              (demo_openssl_keeps_dirs (Exited 0)) (demo_bootstrap_returns []))
    as (w2 & Hrun & Hfs & Hcalls & _).
  exists w2. split; [exact Hrun |]. split; [exact Hfs | exact Hcalls].
Defined.

(** ** C5 *)

Lemma leaf_validity_window_witness :
  @_generate_root_certs (demo_env (Exited 0)) "example" (demo_world 0 [] [])
    = (Returned tt, bootstrapped_world []) /\
  @_generate_server_certs (demo_env (Exited 0)) "example" "svc.example.com"
    (bootstrapped_world ["secret1"]) = (Returned tt, issued_world ["secret1"]) /\
  days_of (openssl_create_ssl "example" "svc.example.com") = Some 365 /\
  days_of (openssl_root_command "example") = Some 356.
Proof.
  split; [apply demo_bootstrap_returns |].
  split; [apply demo_issuance_returns |].
  destruct (@leaf_validity_window (demo_env (Exited 0)) "example"
              "svc.example.com" _ _ _ _
              (demo_bootstrap_returns []) (demo_issuance_returns "secret1" []))
    as (_ & _ & Hl & Hr & _).
  split; [exact Hl | exact Hr].
Defined.

(** C5, as stated, fails: in the demo run the leaf certificate is asked
    for 365 days and the root certificate for 356, so the window of the
    leaf is not the shorter one. *)
Lemma leaf_window_not_shorter :
  calls (issued_world ["secret1"]) =
    [ (openssl_root_command "example", Some "./pkis/example");
      (openssl_genrsa_command "example", Some "./pkis/example");
      (openssl_gencsr_command "example", Some "./pkis/example");
      (openssl_create_ssl "example" "svc.example.com",
       Some "./pkis/example/servers/svc.example.com");
      (openssl_create_pkcs12_keystore "example" "svc.example.com" "secret1",
       Some "./pkis/example/servers/svc.example.com");
      (openssl_convert_to_jks "svc.example.com" "secret1",
       Some "./pkis/example/servers/svc.example.com");
      (["rm"; "keystore.pkcs12"],
       Some "./pkis/example/servers/svc.example.com") ] /\
  ~ validity_shorter (openssl_create_ssl "example" "svc.example.com")
      (openssl_root_command "example").
Proof.
  split; [vm_compute; reflexivity |]. vm_compute. lia.
Qed.

(** ** C8 *)


(** ** C7 *)



(** ** C2 *)



(** ** C1 *)

(** C1, evaluated on the provisioned demo deployment: when the child
    process ends by itself, with status 0 or with status 1, the
    registration line is still in the name-resolution file when
    [_start_deployment] is left, and no deregistration step ([mv]) was
    launched. *)
Theorem registration_survives_child_exit :
  let w := provisioned_world ["abc"] in
  let normal := @_start_deployment (demo_env (Exited 0)) "web" w in
  let failed := @_start_deployment (demo_env (Exited 1)) "web" w in
  fs w !! ["etc"; "hosts"] = Some (File ("127.0.0.1 localhost" +:+ nl)) /\
  normal.1 = Returned tt /\
  fs normal.2 !! ["etc"; "hosts"]
    = Some (File ("127.0.0.1 localhost" +:+ nl +:+ nl
                  +:+ "127.0.0.1    svc.example.com")) /\
  calls normal.2 = [ (["docker-compose"; "up"], Some "deployments/web") ] /\
  failed.1 = Raised (CalledProcessError 1) /\
  fs failed.2 !! ["etc"; "hosts"]
    = Some (File ("127.0.0.1 localhost" +:+ nl +:+ nl
                  +:+ "127.0.0.1    svc.example.com")) /\
  calls failed.2 = [ (["docker-compose"; "up"], Some "deployments/web") ].
Proof. repeat split; vm_compute; reflexivity. Qed.

(** ** C6 *)

(** C6, evaluated on the bootstrapped demo PKI: the first issuance for
    a domain, whose directory does not exist yet, prints the line
    [Error: ... is already in use]; the second issuance, which finds the
    directory, prints no such line. *)
Theorem reuse_warning_is_inverted :
  let w := bootstrapped_world ["secret1"; "secret1"] in
  let fresh := @_generate_server_certs (demo_env (Exited 0)) "example"
                 "svc.example.com" w in
  let again := @_generate_server_certs (demo_env (Exited 0)) "example"
                 "svc.example.com" fresh.2 in
  exists_in (fs w) (cwd w) "pkis/example/servers/svc.example.com" = false /\
  fresh.1 = Returned tt /\
  stdout fresh.2 =
    stdout w ++
    [ "Error: pkis/example/servers/svc.example.com is already in use" +:+ nl;
      "Generating server certificates at "
        +:+ "./pkis/example/servers/svc.example.com" +:+ nl;
      "Enter the keystore password(at least 6 characters): ";
      "Done generating server certificates at "
        +:+ "./pkis/example/servers/svc.example.com" +:+ nl ] /\
  exists_in (fs fresh.2) (cwd fresh.2) "pkis/example/servers/svc.example.com"
    = true /\
  again.1 = Returned tt /\
  stdout again.2 =
    stdout fresh.2 ++
    [ "Generating server certificates at "
        +:+ "./pkis/example/servers/svc.example.com" +:+ nl;
      "Enter the keystore password(at least 6 characters): ";
      "Done generating server certificates at "
        +:+ "./pkis/example/servers/svc.example.com" +:+ nl ].
Proof. repeat split; vm_compute; reflexivity. Qed.

(** * Further properties of the script *)

Section Further.
Context {env : Environment}.

Lemma bind_inv_raised {A B} (m : M A) (k : A -> M B) (w w' : World) (e : exn) :
  bind m k w = (Raised e, w') ->
  m w = (Raised e, w') \/
  exists a w1, m w = (Returned a, w1) /\ k a w1 = (Raised e, w').
Proof.
  unfold bind. destruct (m w) as [[a|e0] w1]; [eauto |].
  intros [= <- <-]. by left.
Qed.

Lemma bind_raised {A B} (m : M A) (k : A -> M B) (w w1 : World) (e : exn) :
  m w = (Raised e, w1) -> bind m k w = (Raised e, w1).
Proof. unfold bind. by intros ->. Qed.

(** ** [_check_files] *)

(** X1. [_check_files] either finds every path to be a regular file and
    returns without changing the world, or stops at the first path that
    is none: it prints that path, raises [SystemExit(1)] and does not
    look at the paths after it. *)
Theorem check_files_outcome (files : list string) (w : World) :
  (Forall (fun f => isfile_in (fs w) (cwd w) f = true) files /\
   _check_files files w = (Returned tt, w)) \/
  (exists pre f post,
     files = pre ++ f :: post /\
     Forall (fun f => isfile_in (fs w) (cwd w) f = true) pre /\
     isfile_in (fs w) (cwd w) f = false /\
     _check_files files w =
       (Raised (SystemExit 1),
        emit (("Error: missing file " +:+ f +:+ "!") +:+ nl) w)).
Proof.
  induction files as [|f files IH].
  - left. split; [constructor | done].
  - destruct (isfile_in (fs w) (cwd w) f) eqn:Hf.
    + destruct IH as [[Hall Hrun]|(pre & g & post & -> & Hpre & Hg & Hrun)].
      * left. split; [by constructor |].
        rewrite check_files_spec in *. cbn [List.find]. by rewrite Hf.
      * right. exists (f :: pre), g, post. repeat split; [by constructor | done |].
        rewrite check_files_spec in *. cbn [List.find]. by rewrite Hf.
    + right. exists [], f, files. repeat split; [constructor | done |].
      rewrite check_files_spec. cbn [List.find]. by rewrite Hf.
Qed.

(** ** [_start_deployment]: missing artifacts *)

(** X2. If the compose definition or the host record of the deployment
    is no regular file, [_start_deployment] raises [SystemExit(1)]
    before it touches the name-resolution file and before it launches
    any process: the tree, the pending input and the process log are
    unchanged. *)
Theorem activation_without_artifacts (deployment_name : string) (w : World) :
  isfile_in (fs w) (cwd w)
    (path_join DEP_DIR deployment_name +:+ "/docker-compose.yaml") = false \/
  isfile_in (fs w) (cwd w)
    (path_join DEP_DIR deployment_name +:+ "/host_additions") = false ->
  exists w',
    _start_deployment deployment_name w = (Raised (SystemExit 1), w') /\
    fs w' = fs w /\ calls w' = calls w /\ stdin w' = stdin w.
Proof.
  intros Hmissing. unfold _start_deployment. cbv zeta.
  set (wd := path_join DEP_DIR deployment_name) in *.
  erewrite bind_returned by reflexivity.
  erewrite bind_returned by reflexivity. wsimpl.
  set (w1 := emit _ w).
  assert (exists w2, when (negb (exists_in (fs w) (cwd w) wd))
                       (print "Provided deployment does not exists") w1
                     = (Returned tt, w2) /\
                     fs w2 = fs w /\ cwd w2 = cwd w /\ calls w2 = calls w /\
                     stdin w2 = stdin w) as (w2 & Hwhen & Hfs & Hcwd & Hc & Hi).
  { destruct (exists_in _ _ _); cbn [negb when]; eexists; split;
      try reflexivity; done. }
  erewrite bind_returned by exact Hwhen.
  assert (exists f,
            _check_files [wd +:+ "/docker-compose.yaml";
                          wd +:+ "/host_additions"] w2
            = (Raised (SystemExit 1),
               emit (("Error: missing file " +:+ f +:+ "!") +:+ nl) w2))
    as (f & Hcheck).
  { rewrite check_files_spec. cbn [List.find]. rewrite Hfs, Hcwd.
    destruct (isfile_in (fs w) (cwd w) (wd +:+ "/docker-compose.yaml"))
      eqn:Ha; cbn [negb]; [| eauto].
    destruct Hmissing as [H|H]; [done |]. rewrite H. cbn [negb]. eauto. }
  erewrite bind_raised by exact Hcheck.
  eexists. split; [reflexivity |]. by wsimpl.
Qed.

(** ** [_generate_deployment] *)

Lemma when_mkdir_tree (b : bool) (p : string) (w w' : World) (u : unit) :
  when b (os_mkdir p) w = (Returned u, w') ->
  exists t, w' = with_fs t w /\ dirs_kept (fs w) t.
Proof.
  intros [[_ ->]|[_ H]]%when_inv.
  - exists (fs w). split; [by rewrite with_fs_id | by intros p' Hp'].
  - apply os_mkdir_inv in H as (k & _ & _ & ->).
    eexists. split; [reflexivity | apply dirs_kept_insert_dir].
Qed.

Lemma relative_join (name : string) :
  starts_with SLASH name = false ->
  path_join DEP_DIR name = DEP_DIR +:+ "/" +:+ name.
Proof. unfold path_join. by intros ->. Qed.

Lemma provisioning_steps
    (deployment_name https_port pki_name domain_name : string)
    (w w' : World) :
  _generate_deployment deployment_name https_port pki_name domain_name w
    = (Returned tt, w') ->
  exists pw rest t0 k1 k2 rendered,
    stdin w = pw :: rest /\ stdin w' = rest /\ cwd w' = cwd w /\
    calls w' = calls w /\
    stdout w' =
      stdout w ++
      [ ("Generating the deployment " +:+ deployment_name) +:+ nl;
        ("Generating the new deployment at "
         +:+ path_join DEP_DIR deployment_name) +:+ nl;
        "Enter the keystore password: ";
        ("Done generating the deployment " +:+ deployment_name) +:+ nl ] /\
    resolve t0 (cwd w)
      (DEP_DIR +:+ "/" +:+ deployment_name +:+ "/docker-compose.yaml")
      = Some k1 /\
    is_dir t0 k1 = false /\
    resolve (<[k1 := File rendered]> t0) (cwd w)
      (DEP_DIR +:+ "/" +:+ deployment_name +:+ "/host_additions")
      = Some k2 /\
    is_dir (<[k1 := File rendered]> t0) k2 = false /\
    fs w' =
      <[k2 := File ("127.0.0.1    " +:+ domain_name)]>
        (<[k1 := File rendered]> t0).
Proof.
  intros H. unfold _generate_deployment in H. cbv zeta in H.
  bind_inv H u1 H1. pure_inv H1.
  bind_inv H u2 H1. pure_inv H1.
  bind_inv H found H1. pure_inv H1.
  bind_inv H u3 H1. apply when_mkdir_tree in H1 as (t0 & -> & _).
  bind_inv H pw H1. apply input_inv in H1 as (rest & Hin & ->).
  bind_inv H jfile H1. apply open_r_inv in H1 as (-> & _ & _).
  bind_inv H text H1. pure_inv H1.
  bind_inv H tpl H1. apply make_template_inv in H1 as (-> & _).
  bind_inv H k1 H1. apply open_w_inv in H1 as (Hr1 & Hd1 & ->).
  bind_inv H rendered H1. apply template_render_inv in H1 as (-> & _).
  bind_inv H u4 H1. pure_inv H1.
  bind_inv H k2 H1. apply open_w_inv in H1 as (Hr2 & Hd2 & ->).
  bind_inv H u5 H1. pure_inv H1.
  pure_inv H. wsimpl.
  rewrite !insert_insert_eq in *.
  rewrite content_at_insert in Hr2, Hd2. repeat rewrite content_at_insert.
  change (EmptyString +:+ ?s) with s in *.
  exists pw, rest, t0, k1, k2, rendered.
  repeat split; try done.
  by rewrite <- !app_assoc.
Qed.

(** X3. A provisioning that returned leaves what activation asks for:
    for a relative deployment name, the two files [_start_deployment]
    checks are regular files, and the host record holds exactly
    [127.0.0.1    <domain>], without line break at its end. *)
Theorem provisioning_prepares_activation
    (deployment_name https_port pki_name domain_name : string)
    (w w' : World) :
  starts_with SLASH deployment_name = false ->
  _generate_deployment deployment_name https_port pki_name domain_name w
    = (Returned tt, w') ->
  _check_files
    [ path_join DEP_DIR deployment_name +:+ "/docker-compose.yaml";
      path_join DEP_DIR deployment_name +:+ "/host_additions" ] w'
    = (Returned tt, w') /\
  exists kh,
    resolve (fs w') (cwd w')
      (path_join DEP_DIR deployment_name +:+ "/host_additions") = Some kh /\
    fs w' !! kh = Some (File ("127.0.0.1    " +:+ domain_name)).
Proof.
  intros Hrel H. rewrite (relative_join _ Hrel).
  apply provisioning_steps in H
    as (pw & rest & t0 & k1 & k2 & rendered & _ & _ & Hcwd & _ & _
        & Hr1 & Hd1 & Hr2 & Hd2 & Hfs).
  set (ta := <[k1 := File rendered]> t0) in *.
  set (entry := "127.0.0.1    " +:+ domain_name) in *.
  assert (same_dirs t0 ta) as Hs1 by (by apply same_dirs_insert_file).
  assert (same_dirs ta (fs w')) as Hs2
    by (rewrite Hfs; by apply same_dirs_insert_file).
  change ((DEP_DIR +:+ "/" +:+ deployment_name) +:+ "/docker-compose.yaml")
    with (DEP_DIR +:+ "/" +:+ deployment_name +:+ "/docker-compose.yaml").
  change ((DEP_DIR +:+ "/" +:+ deployment_name) +:+ "/host_additions")
    with (DEP_DIR +:+ "/" +:+ deployment_name +:+ "/host_additions").
  assert (exists kd1, k1 = kd1 ++ ["docker-compose.yaml"]) as [kd1 ->].
  { change (DEP_DIR +:+ "/" +:+ deployment_name +:+ "/docker-compose.yaml")
      with ((DEP_DIR +:+ "/" +:+ deployment_name)
            +:+ String SLASH "docker-compose.yaml") in Hr1.
    by apply resolve_last in Hr1. }
  assert (exists kd2, k2 = kd2 ++ ["host_additions"]) as [kd2 ->].
  { change (DEP_DIR +:+ "/" +:+ deployment_name +:+ "/host_additions")
      with ((DEP_DIR +:+ "/" +:+ deployment_name)
            +:+ String SLASH "host_additions") in Hr2.
    by apply resolve_last in Hr2. }
  assert (kd1 ++ ["docker-compose.yaml"] <> kd2 ++ ["host_additions"]) as Hne.
  { intros Heq. by apply app_inj_tail in Heq as [_ [=]]. }
  rewrite (resolve_same_dirs _ _ _ _ Hs1), (resolve_same_dirs _ _ _ _ Hs2),
    <- Hcwd in Hr1.
  rewrite (resolve_same_dirs _ _ _ _ Hs2), <- Hcwd in Hr2.
  split.
  - rewrite check_files_spec. cbn [List.find]. unfold isfile_in.
    rewrite Hr1, Hr2, !is_file_snoc, Hfs.
    rewrite lookup_insert_ne by done. unfold ta.
    by rewrite !lookup_insert_eq.
  - exists (kd2 ++ ["host_additions"]). split; [done |].
    by rewrite Hfs, lookup_insert_eq.
Qed.

(** X4. A provisioning that returned has launched no process, has read
    exactly one line of input, and has written to standard output its
    three progress lines and the prompt, none of which shows the
    passphrase. *)
Theorem provisioning_is_local
    (deployment_name https_port pki_name domain_name : string)
    (w w' : World) :
  _generate_deployment deployment_name https_port pki_name domain_name w
    = (Returned tt, w') ->
  calls w' = calls w /\
  (exists pw, stdin w = pw :: stdin w') /\
  stdout w' =
    stdout w ++
    [ ("Generating the deployment " +:+ deployment_name) +:+ nl;
      ("Generating the new deployment at "
       +:+ path_join DEP_DIR deployment_name) +:+ nl;
      "Enter the keystore password: ";
      ("Done generating the deployment " +:+ deployment_name) +:+ nl ].
Proof.
  intros H. apply provisioning_steps in H
    as (pw & rest & t0 & k1 & k2 & rendered & Hin & Hout & _ & Hcalls & Hstd & _).
  split; [done |]. split; [| done]. exists pw. by rewrite Hout.
Qed.

(** X5. Provisioning a deployment whose directory already exists does
    not fail on that account: when the compose template is readable and
    renders, a line of input is pending and neither artifact path is a
    directory, it returns, and the compose definition and the host
    record hold the new rendering and the new record whatever they held
    before; nothing else in the tree changes. *)
Theorem reprovisioning_overwrites
    (deployment_name https_port pki_name domain_name : string) (w : World)
    (kd kt : list string) (tpl : Template) (pw rendered : string)
    (rest : list string) :
  starts_with SLASH deployment_name = false ->
  resolve (fs w) (cwd w) (path_join DEP_DIR deployment_name) = Some kd ->
  is_dir (fs w) kd = true ->
  is_dir (fs w) (kd ++ ["docker-compose.yaml"]) = false ->
  is_dir (fs w) (kd ++ ["host_additions"]) = false ->
  resolve (fs w) (cwd w) (DEP_DIR +:+ "/docker-compose-template.j2")
    = Some kt ->
  is_file (fs w) kt = true ->
  jinja2_Template (universal_newlines (content_at (fs w) kt)) = Some tpl ->
  jinja2_render tpl
    [ ("HTTPS_PORT_BIND", https_port); ("KEYSTORE_PASSWORD", pw);
      ("PKI_NAME", pki_name); ("DOMAIN_NAME", domain_name) ]
    = Some rendered ->
  stdin w = pw :: rest ->
  exists w',
    _generate_deployment deployment_name https_port pki_name domain_name w
      = (Returned tt, w') /\
    stdin w' = rest /\
    fs w' =
      <[kd ++ ["host_additions"] := File ("127.0.0.1    " +:+ domain_name)]>
        (<[kd ++ ["docker-compose.yaml"] := File rendered]> (fs w)).
Proof.
  intros Hrel Hkd Hdir Hc1 Hc2 Hkt Hft Htpl Hrender Hin.
  rewrite (relative_join _ Hrel) in Hkd.
  assert (exists_in (fs w) (cwd w) (path_join DEP_DIR deployment_name) = true)
    as Hex.
  { rewrite (relative_join _ Hrel). unfold exists_in. rewrite Hkd.
    by apply is_dir_present. }
  set (k1 := kd ++ ["docker-compose.yaml"]) in *.
  set (k2 := kd ++ ["host_additions"]) in *.
  set (ta := <[k1 := File rendered]> (fs w)).
  assert (same_dirs (fs w) (<[k1 := File EmptyString]> (fs w))) as Hs0
    by (by apply same_dirs_insert_file).
  assert (same_dirs (fs w) ta) as Hs1 by (by apply same_dirs_insert_file).
  assert (resolve (fs w) (cwd w)
            (DEP_DIR +:+ "/" +:+ deployment_name +:+ "/docker-compose.yaml")
          = Some k1) as Hr1.
  { change (DEP_DIR +:+ "/" +:+ deployment_name +:+ "/docker-compose.yaml")
      with ((DEP_DIR +:+ "/" +:+ deployment_name)
            +:+ String SLASH "docker-compose.yaml").
    by apply resolve_child. }
  assert (resolve (fs w) (cwd w)
            (DEP_DIR +:+ "/" +:+ deployment_name +:+ "/host_additions")
          = Some k2) as Hr2.
  { change (DEP_DIR +:+ "/" +:+ deployment_name +:+ "/host_additions")
      with ((DEP_DIR +:+ "/" +:+ deployment_name)
            +:+ String SLASH "host_additions").
    by apply resolve_child. }
  eexists. split; [| split].
  - unfold _generate_deployment. cbv zeta.
    erewrite bind_returned by reflexivity.
    erewrite bind_returned by reflexivity.
    erewrite bind_returned by reflexivity. wsimpl. rewrite Hex.
    cbn [negb when]. rewrite bind_ret_l.
    erewrite bind_returned;
      [| unfold input; wsimpl; rewrite Hin; reflexivity].
    erewrite bind_returned; [| by apply open_r_ok].
    erewrite bind_returned by reflexivity. wsimpl.
    erewrite bind_returned;
      [| unfold make_template; rewrite Htpl; reflexivity].
    erewrite bind_returned; [| by apply open_w_ok].
    erewrite bind_returned;
      [| unfold template_render; rewrite Hrender; reflexivity].
    erewrite bind_returned by reflexivity. wsimpl.
    rewrite content_at_insert, insert_insert_eq.
    change (EmptyString +:+ rendered) with rendered. fold ta.
    erewrite bind_returned;
      [| apply open_w_ok; wsimpl;
         [by rewrite <- (resolve_same_dirs _ _ _ _ Hs1)
         | by rewrite <- (Hs1 k2)]].
    erewrite bind_returned by reflexivity. wsimpl.
    reflexivity.
  - by wsimpl.
  - wsimpl. by rewrite content_at_insert, insert_insert_eq.
Qed.

(** ** [_git_crypt_unlock] *)

Lemma subprocess_run_raise_inv (args : list string) (dir : option string)
    (check : bool) (w w' : World) (e : exn) :
  subprocess_run args dir check w = (Raised e, w') ->
  e = KeyboardInterrupt \/ e = OSError \/
  (check = true /\ exists c, e = CalledProcessError c).
Proof.
  unfold subprocess_run.
  destruct (match dir with Some _ => _ | None => _ end) as [d|];
    [| intros [= <- _]; auto].
  destruct (run_program _ _ _ _) as [[code| |] t].
  - destruct check; cbn [andb]; [| done].
    destruct (negb _); [| done]. intros [= <- _]. eauto 10.
  - intros [= <- _]. auto.
  - intros [= <- _]. auto.
Qed.

Lemma rm_git_crypt_key (t : tree) (d : list string) :
  is_dir t d = true ->
  is_file (coreutils_rm ["git-crypt-key"] d t).2 (d ++ ["git-crypt-key"])
    = false.
Proof.
  intros Hd. unfold coreutils_rm, rm_each, resolve.
  change (is_empty "git-crypt-key") with false. cbv iota.
  change (start_of d "git-crypt-key") with d.
  change (components "git-crypt-key") with ["git-crypt-key"].
  cbn [walk]. rewrite Hd.
  change (step_into d "git-crypt-key") with (d ++ ["git-crypt-key"]).
  destruct (is_file t (d ++ ["git-crypt-key"])) eqn:Hf; cbn [fst snd].
  - by rewrite is_file_snoc, lookup_delete_eq.
  - done.
Qed.

(** X6. When the decryption fails (openssl ends with a nonzero status),
    [_git_crypt_unlock] does not launch git-crypt: it launches
    [rm git-crypt-key], prints the error line and returns normally, so
    that the failure is reported by that line only; no regular file
    [git-crypt-key] is left in the working directory. *)
Theorem unlock_after_failed_decryption
    (key : string) (w : World) (code : nat) (t : tree) :
  code <> 0 ->
  toolkit (length (calls w)) (openssl_decrypt_aes256 key) (cwd w) (fs w)
    = (Exited code, t) ->
  is_dir t (cwd w) = true ->
  exists w',
    _git_crypt_unlock key w = (Returned tt, w') /\
    calls w' =
      calls w ++ [ (openssl_decrypt_aes256 key, None);
                   (["rm"; "git-crypt-key"], None) ] /\
    stdout w' =
      stdout w ++ [ "Unlocking the repository..." +:+ nl;
                    "Error: Unlocking failed" +:+ nl ] /\
    is_file (fs w') (cwd w ++ ["git-crypt-key"]) = false.
Proof.
  intros Hcode Hrun Hdir. unfold _git_crypt_unlock.
  erewrite bind_returned by reflexivity.
  unfold try_except.
  erewrite bind_raised.
  2:{ unfold subprocess_run. wsimpl.
      change (run_program ?n (openssl_decrypt_aes256 key) ?d ?t0)
        with (toolkit n (openssl_decrypt_aes256 key) d t0).
      rewrite Hrun. cbn [andb].
      destruct (Nat.eqb_spec code 0) as [->|_]; [done |]. reflexivity. }
  cbn [is_CalledProcessError].
  destruct (coreutils_rm ["git-crypt-key"] (cwd w) t) as [st t'] eqn:Hrm.
  assert (exists c, st = Exited c) as [c ->].
  { unfold coreutils_rm in Hrm. injection Hrm as <- _. eauto. }
  erewrite bind_returned.
  2:{ unfold subprocess_run. wsimpl.
      change (run_program ?n ["rm"; "git-crypt-key"] ?d ?t0)
        with (coreutils_rm ["git-crypt-key"] d t0).
      rewrite Hrm. cbn [andb]. reflexivity. }
  eexists. split; [reflexivity |]. wsimpl.
  split; [by rewrite <- app_assoc |]. split; [by rewrite <- app_assoc |].
  apply (f_equal snd) in Hrm. cbn [snd] in Hrm. rewrite <- Hrm.
  by apply rm_git_crypt_key.
Qed.

(** X7. When the decryption succeeds, the exit status of
    [git-crypt unlock] is ignored: whatever it is, [_git_crypt_unlock]
    returns normally, prints no error line and launches no [rm], and
    leaves the tree as git-crypt left it (the decrypted key included). *)
Theorem unlock_ignores_git_crypt_status
    (key : string) (w : World) (code : nat) (t1 t2 : tree) :
  toolkit (length (calls w)) (openssl_decrypt_aes256 key) (cwd w) (fs w)
    = (Exited 0, t1) ->
  toolkit (S (length (calls w))) ["git-crypt"; "unlock"; "./git-crypt-key"]
    (cwd w) t1 = (Exited code, t2) ->
  exists w',
    _git_crypt_unlock key w = (Returned tt, w') /\
    fs w' = t2 /\
    calls w' =
      calls w ++ [ (openssl_decrypt_aes256 key, None);
                   (["git-crypt"; "unlock"; "./git-crypt-key"], None) ] /\
    stdout w' = stdout w ++ [ "Unlocking the repository..." +:+ nl ].
Proof.
  intros Hrun1 Hrun2. unfold _git_crypt_unlock.
  erewrite bind_returned by reflexivity.
  unfold try_except.
  erewrite bind_returned.
  2:{ unfold subprocess_run. wsimpl.
      change (run_program ?n (openssl_decrypt_aes256 key) ?d ?t0)
        with (toolkit n (openssl_decrypt_aes256 key) d t0).
      rewrite Hrun1. reflexivity. }
  unfold subprocess_run. wsimpl.
  change (run_program ?n ["git-crypt"; "unlock"; "./git-crypt-key"] ?d ?t0)
    with (toolkit n ["git-crypt"; "unlock"; "./git-crypt-key"] d t0).
  rewrite length_app. cbn [length]. rewrite Nat.add_1_r, Hrun2.
  cbn [andb]. eexists. split; [reflexivity |]. wsimpl.
  split; [done |]. split; [by rewrite <- app_assoc | done].
Qed.

(** X8. [_git_crypt_unlock] never lets a [CalledProcessError] out, and
    never exits the interpreter: it returns normally, or it raises
    [KeyboardInterrupt] or an [OSError] (a program that is not
    installed). *)
Theorem unlock_outcomes (key : string) (w : World) :
  match (_git_crypt_unlock key w).1 with
  | Returned _ => True
  | Raised e => e = KeyboardInterrupt \/ e = OSError
  end.
Proof.
  destruct (_git_crypt_unlock key w) as [[u|e] w'] eqn:H; [done |].
  cbn [fst]. unfold _git_crypt_unlock in H.
  apply bind_inv_raised in H as [H|(u & w1 & H1 & H)]; [done |].
  pure_inv H1. unfold try_except in H.
  match type of H with
  | match ?body ?w0 with _ => _ end = _ =>
      destruct (body w0) as [[u|e0] w2] eqn:Hbody; [done |]
  end.
  destruct (is_CalledProcessError e0) eqn:He.
  - apply bind_inv_raised in H as [H|(u & w3 & _ & H)]; [| done].
    apply subprocess_run_raise_inv in H as [->|[->|[? _]]]; auto. done.
  - injection H as <- _.
    apply bind_inv_raised in Hbody as [H|(u & w3 & _ & H)];
      apply subprocess_run_raise_inv in H as [->|[->|[_ [c ->]]]]; auto; done.
Qed.

(** ** [main] and [handle_cli_arguments] *)

(** X9. Run as root with a command line that requests no operation,
    [main] does nothing to the tree and launches nothing.  With no
    argument at all it prints the help text on standard error and
    raises [SystemExit(1)]; with arguments (options whose names are all
    empty strings) it returns normally without a word. *)
Theorem main_with_nothing_requested (args : Namespace) (w : World) :
  euid w = 0 ->
  parse_args (tail (argv w)) = inl args ->
  requested args = [] ->
  main w =
    if Nat.eqb (length (argv w)) 1
    then (Raised (SystemExit 1), emit_err format_help w)
    else (Returned tt, w).
Proof.
  intros Hroot Hparse Hnone.
  pose proof (handle_cli_arguments_run args w) as Hrun.
  rewrite Hnone in Hrun. cbn [run_logged snd] in Hrun.
  unfold main, executed_as_root, os_geteuid.
  unfold bind at 1. unfold bind at 1. rewrite Hroot. cbn [Nat.eqb ret negb when].
  rewrite bind_ret_l. unfold handle_cli_arguments, parser_parse_args.
  unfold bind at 1. unfold bind at 1. unfold sys_argv at 1.
  rewrite Hparse. cbn [ret].
  unfold bind at 1. rewrite <- Hrun.
  unfold bind at 1. unfold sys_argv.
  by destruct (Nat.eqb (length (argv w)) 1).
Qed.

(** ** [_generate_root_certs]: a bootstrap that fails half-way *)

Lemma subprocess_run_cpe_inv (args : list string) (dir : option string)
    (check : bool) (w w' : World) (c : nat) :
  subprocess_run args dir check w = (Raised (CalledProcessError c), w') ->
  exists d t,
    run_program (length (calls w)) args d (fs w) = (Exited c, t) /\
    w' = log_call (args, dir) (with_fs t w).
Proof.
  unfold subprocess_run.
  destruct (match dir with Some _ => _ | None => _ end) as [d|]; [| done].
  destruct (run_program _ _ _ _) as [[code| |] t] eqn:Hrun; try done.
  destruct (check && negb (Nat.eqb code 0)); [| done].
  intros [= -> <-]. eauto.
Qed.

Ltac raise_inv H a H1 :=
  let w1 := fresh "w" in
  apply bind_inv_raised in H as [H|(a & w1 & H1 & H)].

Ltac not_this_exception H :=
  unfold print, os_path_exists, os_mkdir, open_r, open_w, file_read,
    file_write, make_template, template_render, sys_exit, raise, ret in H;
  repeat case_match; discriminate H.

Lemma failed_bootstrap_leaves_directory
    (pki_name : string) (w w1 : World) (c : nat) :
  openssl_keeps_dirs ->
  _generate_root_certs pki_name w = (Raised (CalledProcessError c), w1) ->
  exists_in (fs w1) (cwd w1) ("./" +:+ path_join PKI_DIR pki_name) = true.
Proof.
  intros Hssl H. unfold _generate_root_certs in H. cbv zeta in H.
  set (wd := "./" +:+ path_join PKI_DIR pki_name) in *.
  raise_inv H u1 H1; [not_this_exception H |]. pure_inv H1.
  raise_inv H found H1; [not_this_exception H |]. pure_inv H1.
  raise_inv H u2 H1.
  { destruct (negb _); [not_this_exception H |].
    raise_inv H u3 H1; not_this_exception H. }
  destruct (negb _) eqn:Hfound.
  2:{ bind_inv H1 u3 H2. done. }
  apply os_mkdir_inv in H1 as (k & Hk & Hnew & ->). wsimpl.
  assert (forall t, dirs_kept (<[k := Dir]> (fs w)) t ->
                    exists_in t (cwd w) wd = true) as Hgoal.
  { intros t Hkept.
    apply (exists_after_mkdir (fs w) t (cwd w) k wd); [| | done].
    - eapply dirs_kept_trans; [apply dirs_kept_insert_dir | exact Hkept].
    - apply Hkept, is_dir_insert_dir. }
  raise_inv H u3 H1.
  { apply subprocess_run_cpe_inv in H as (d & t & Hrun & ->). wsimpl.
    apply Hgoal. by apply (run_openssl _ _ _ _ _ _ Hssl) in Hrun. }
  apply subprocess_run_inv in H1 as (d1 & t1 & _ & Hrun1 & ->). wsimpl.
  apply (run_openssl _ _ _ _ _ _ Hssl) in Hrun1.
  raise_inv H u4 H1.
  { apply subprocess_run_cpe_inv in H as (d & t & Hrun & ->). wsimpl.
    apply Hgoal. apply (run_openssl _ _ _ _ _ _ Hssl) in Hrun.
    by eapply dirs_kept_trans. }
  apply subprocess_run_inv in H1 as (d2 & t2 & _ & Hrun2 & ->). wsimpl.
  apply (run_openssl _ _ _ _ _ _ Hssl) in Hrun2.
  raise_inv H jfile H1; [not_this_exception H |].
  apply open_r_inv in H1 as (-> & _ & _).
  raise_inv H text H1; [not_this_exception H |]. pure_inv H1.
  raise_inv H template H1; [not_this_exception H |].
  apply make_template_inv in H1 as (-> & _).
  raise_inv H file H1; [not_this_exception H |].
  apply open_w_inv in H1 as (_ & Hfile & ->). wsimpl.
  raise_inv H rendered H1; [not_this_exception H |].
  apply template_render_inv in H1 as (-> & _).
  raise_inv H u5 H1; [not_this_exception H |]. pure_inv H1. wsimpl.
  rewrite insert_insert_eq in H.
  raise_inv H u6 H1; [| not_this_exception H].
  apply subprocess_run_cpe_inv in H as (d & t & Hrun & ->). wsimpl.
  apply Hgoal. apply (run_openssl _ _ _ _ _ _ Hssl) in Hrun.
  eapply dirs_kept_trans; [exact Hrun1 |].
  eapply dirs_kept_trans; [exact Hrun2 |].
  eapply dirs_kept_trans; [| exact Hrun].
  by apply same_dirs_kept, same_dirs_insert_file.
Qed.

(** X10. A bootstrap that fails at one of its openssl steps cleans
    nothing up: the directory it made stays, and a second bootstrap of
    the same name is refused with [SystemExit(1)] as if the PKI existed,
    without launching a process or writing a file.  (openssl is assumed
    to remove no directory.) *)
Theorem failed_bootstrap_blocks_retry
    (pki_name : string) (w w1 : World) (c : nat) :
  openssl_keeps_dirs ->
  _generate_root_certs pki_name w = (Raised (CalledProcessError c), w1) ->
  exists w2,
    _generate_root_certs pki_name w1 = (Raised (SystemExit 1), w2) /\
    fs w2 = fs w1 /\ calls w2 = calls w1 /\
    stdout w2 =
      stdout w1 ++
      [ ("Generating root certificates at "
         +:+ "./" +:+ path_join PKI_DIR pki_name) +:+ nl;
        ("Error: PKI with the name " +:+ pki_name +:+ " already exists")
         +:+ nl ].
Proof.
  intros Hssl H.
  pose proof (failed_bootstrap_leaves_directory _ _ _ _ Hssl H) as Hex.
  rewrite (bootstrap_existing _ _ Hex).
  eexists. split; [reflexivity |]. wsimpl.
  by rewrite <- app_assoc.
Qed.

(** ** [_start_deployment]: registration, and the two ways out *)

(** Up to the launch of the child: the record is read and appended, after a
    newline, to the name-resolution file. *)
Lemma start_deployment_registers
    (deployment_name record before : string) (w : World)
    (kh kd : list string) :
  isfile_in (fs w) (cwd w)
    (path_join DEP_DIR deployment_name +:+ "/docker-compose.yaml") = true ->
  resolve (fs w) (cwd w)
    (path_join DEP_DIR deployment_name +:+ "/host_additions") = Some kh ->
  fs w !! kh = Some (File record) ->
  resolve (fs w) (cwd w) (path_join DEP_DIR deployment_name) = Some kd ->
  is_dir (fs w) kd = true ->
  fs w !! ["etc"] = Some Dir ->
  fs w !! ["etc"; "hosts"] = Some (File before) ->
  _start_deployment deployment_name w =
    bind
      (try_except
         (subprocess_run ["docker-compose"; "up"]
            (Some (path_join DEP_DIR deployment_name)) true)
         is_KeyboardInterrupt
         (remove_hosts_entry (universal_newlines record)))
      (fun _ => print ("Done starting the deployment " +:+ deployment_name))
      (with_fs
         (<[["etc"; "hosts"] :=
              File (before +:+ nl +:+ universal_newlines record)]> (fs w))
         (emit (("Starting the deployment " +:+ deployment_name) +:+ nl) w)).
Proof.
  intros Hyaml Hr Hkh Hwd Hkd Hetc Hhosts.
  set (wd := path_join DEP_DIR deployment_name) in *.
  assert (is_file (fs w) kh = true) as Hfile.
  { change (wd +:+ "/host_additions")
      with (wd +:+ String SLASH "host_additions") in Hr.
    apply resolve_last in Hr as [kd' ->]; [| done | done].
    by rewrite is_file_snoc, Hkh. }
  assert (exists_in (fs w) (cwd w) wd = true) as Hex.
  { unfold exists_in. rewrite Hwd. by apply is_dir_present. }
  assert (isfile_in (fs w) (cwd w) (wd +:+ "/host_additions") = true) as Hha.
  { unfold isfile_in. by rewrite Hr. }
  unfold _start_deployment. cbv zeta. fold wd.
  erewrite bind_returned by reflexivity.
  erewrite bind_returned by reflexivity. wsimpl. rewrite Hex.
  cbn [negb when]. rewrite bind_ret_l.
  erewrite bind_returned;
    [| rewrite check_files_spec; cbn [List.find]; wsimpl;
       rewrite Hyaml, Hha; reflexivity].
  erewrite bind_returned; [| by apply open_r_ok].
  erewrite bind_returned by reflexivity. wsimpl.
  rewrite !(content_at_lookup _ _ _ Hkh).
  erewrite bind_returned;
    [| apply open_a_ok; [by apply resolve_etc_hosts |];
       wsimpl; cbn [is_file]; by rewrite Hhosts].
  erewrite bind_returned by reflexivity. wsimpl.
  rewrite !(content_at_lookup _ _ _ Hhosts). reflexivity.
Qed.

(** X11. When the child process ends by itself, [_start_deployment]
    performs no deregistration: the child has run on the tree with the
    record appended to the name-resolution file, and the tree it leaves
    is the tree on return.  With status 0 the closing line is printed
    and the call returns; with any other status [CalledProcessError]
    propagates and the closing line is not printed. *)
Theorem activation_child_exit
    (deployment_name record before : string) (w : World)
    (kh kd : list string) (code : nat) (t' : tree) :
  isfile_in (fs w) (cwd w)
    (path_join DEP_DIR deployment_name +:+ "/docker-compose.yaml") = true ->
  resolve (fs w) (cwd w)
    (path_join DEP_DIR deployment_name +:+ "/host_additions") = Some kh ->
  fs w !! kh = Some (File record) ->
  resolve (fs w) (cwd w) (path_join DEP_DIR deployment_name) = Some kd ->
  is_dir (fs w) kd = true ->
  fs w !! ["etc"] = Some Dir ->
  fs w !! ["etc"; "hosts"] = Some (File before) ->
  toolkit (length (calls w)) ["docker-compose"; "up"] kd
    (<[["etc"; "hosts"] :=
         File (before +:+ nl +:+ universal_newlines record)]> (fs w))
    = (Exited code, t') ->
  exists w',
    _start_deployment deployment_name w =
      (if Nat.eqb code 0 then Returned tt
       else Raised (CalledProcessError code), w') /\
    fs w' = t' /\
    calls w' =
      calls w ++ [ (["docker-compose"; "up"],
                    Some (path_join DEP_DIR deployment_name)) ] /\
    stdout w' =
      stdout w ++
      [ ("Starting the deployment " +:+ deployment_name) +:+ nl ] ++
      (if Nat.eqb code 0
       then [ ("Done starting the deployment " +:+ deployment_name) +:+ nl ]
       else []).
Proof.
  intros Hyaml Hr Hkh Hwd Hkd Hetc Hhosts Hchild.
  rewrite (start_deployment_registers _ record before w kh kd) by done.
  set (wd := path_join DEP_DIR deployment_name) in *.
  set (t1 := <[["etc"; "hosts"] := _]> (fs w)) in *.
  assert (same_dirs (fs w) t1) as Hs1.
  { apply same_dirs_insert_file. cbn [is_dir]. by rewrite Hhosts. }
  assert (forall w0, fs w0 = t1 -> cwd w0 = cwd w -> calls w0 = calls w ->
            subprocess_run ["docker-compose"; "up"] (Some wd) true w0 =
            (if Nat.eqb code 0 then Returned tt
             else Raised (CalledProcessError code),
             log_call (["docker-compose"; "up"], Some wd) (with_fs t' w0)))
    as Hrun.
  { intros w0 Hfs Hcwd Hcalls. unfold subprocess_run.
    rewrite Hfs, Hcwd, Hcalls.
    rewrite <- (resolve_same_dirs _ _ _ _ Hs1), Hwd, <- (Hs1 kd), Hkd.
    change (run_program ?n ["docker-compose"; "up"] ?d ?t)
      with (toolkit n ["docker-compose"; "up"] d t).
    rewrite Hchild. cbn [andb]. by destruct (Nat.eqb code 0). }
  unfold bind, try_except. rewrite Hrun by done.
  destruct (Nat.eqb code 0); cbn [is_KeyboardInterrupt];
    eexists; (split; [reflexivity |]); wsimpl;
    (split; [done |]); (split; [done |]).
  - by rewrite <- app_assoc.
  - by rewrite app_nil_r.
Qed.











(** ** What the two certificate operations print, read and launch *)

(** X14. A bootstrap that returned has read no input, has launched
    exactly three openssl processes in the PKI directory, in the order
    root certificate, service key, signing request, and has printed its
    opening and closing lines and nothing else. *)
Theorem bootstrap_footprint (pki_name : string) (w w1 : World) :
  _generate_root_certs pki_name w = (Returned tt, w1) ->
  stdin w1 = stdin w /\
  calls w1 =
    calls w ++
    [ (openssl_root_command pki_name,
       Some ("./" +:+ path_join PKI_DIR pki_name));
      (openssl_genrsa_command pki_name,
       Some ("./" +:+ path_join PKI_DIR pki_name));
      (openssl_gencsr_command pki_name,
       Some ("./" +:+ path_join PKI_DIR pki_name)) ] /\
  stdout w1 =
    stdout w ++
    [ ("Generating root certificates at "
       +:+ "./" +:+ path_join PKI_DIR pki_name) +:+ nl;
      ("Done generating root certificates at "
       +:+ "./" +:+ path_join PKI_DIR pki_name) +:+ nl ].
Proof.
  intros H. unfold _generate_root_certs in H. cbv zeta in H.
  set (wd := "./" +:+ path_join PKI_DIR pki_name) in *.
  bind_inv H u1 H1. pure_inv H1.
  bind_inv H found H1. pure_inv H1.
  bind_inv H u2 H1.
  destruct (negb _) eqn:Hfound.
  2:{ bind_inv H1 u3 H2. done. }
  apply os_mkdir_inv in H1 as (k & _ & _ & ->).
  bind_inv H u3 H1.
  apply subprocess_run_inv in H1 as (d1 & t1 & _ & _ & ->).
  bind_inv H u4 H1.
  apply subprocess_run_inv in H1 as (d2 & t2 & _ & _ & ->).
  bind_inv H jfile H1. apply open_r_inv in H1 as (-> & _ & _).
  bind_inv H text H1. pure_inv H1.
  bind_inv H template H1. apply make_template_inv in H1 as (-> & _).
  bind_inv H file H1. apply open_w_inv in H1 as (_ & _ & ->).
  bind_inv H rendered H1. apply template_render_inv in H1 as (-> & _).
  bind_inv H u5 H1. pure_inv H1.
  bind_inv H u6 H1.
  apply subprocess_run_inv in H1 as (d3 & t3 & _ & _ & ->).
  pure_inv H. wsimpl. split; [done |]. by rewrite <- !app_assoc.
Qed.


End Further.

(** ** Concrete runs for the further properties *)

Lemma raised_eta (e : exn) (r : outcome unit * World) :
  r.1 = Raised e -> r = (Raised e, r.2).
Proof. destruct r as [o w]. simpl. by intros ->. Qed.

Lemma scripted_openssl_keeps_dirs (script : nat -> list string -> status) :
  @openssl_keeps_dirs (scripted_env script).
Proof.
  intros seed args d t st t' H. cbn in H. injection H as _ <-.
  by intros p Hp.
Qed.

Lemma activation_without_artifacts_witness :
  (isfile_in (fs (demo_world 0 [] [])) (cwd (demo_world 0 [] []))
     (path_join DEP_DIR "web" +:+ "/docker-compose.yaml") = false \/
   isfile_in (fs (demo_world 0 [] [])) (cwd (demo_world 0 [] []))
     (path_join DEP_DIR "web" +:+ "/host_additions") = false) /\
  exists w',
    @_start_deployment (demo_env (Exited 0)) "web" (demo_world 0 [] [])
      = (Raised (SystemExit 1), w') /\
    fs w' = fs (demo_world 0 [] []) /\ calls w' = calls (demo_world 0 [] []).
Proof.
  assert (isfile_in (fs (demo_world 0 [] [])) (cwd (demo_world 0 [] []))
            (path_join DEP_DIR "web" +:+ "/docker-compose.yaml") = false)
    as Hyaml by (vm_compute; reflexivity).
  split; [left; exact Hyaml |].
  destruct (@activation_without_artifacts (demo_env (Exited 0)) "web"
              (demo_world 0 [] []) (or_introl Hyaml))
    as (w' & Hrun & Hfs & Hcalls & _).
  exists w'. split; [exact Hrun |]. split; [exact Hfs | exact Hcalls].
Defined.

Lemma provisioning_prepares_activation_witness :
  starts_with SLASH "web" = false /\
  @_generate_deployment (demo_env (Exited 0)) "web" "8443" "example"
    "svc.example.com" (demo_world 0 [] ["abc"])
    = (Returned tt, provisioned_world ["abc"]) /\
  _check_files
    [ path_join DEP_DIR "web" +:+ "/docker-compose.yaml";
      path_join DEP_DIR "web" +:+ "/host_additions" ]
    (provisioned_world ["abc"])
    = (Returned tt, provisioned_world ["abc"]).
Proof.
  assert (starts_with SLASH "web" = false) as Hrel by reflexivity.
  split; [exact Hrel |]. split; [apply demo_provisioning_returns |].
  exact (proj1 (@provisioning_prepares_activation (demo_env (Exited 0))
                  "web" "8443" "example" "svc.example.com" _ _ Hrel
                  (demo_provisioning_returns "abc" []))).
Defined.

Lemma provisioning_is_local_witness :
  @_generate_deployment (demo_env (Exited 0)) "web" "8443" "example"
    "svc.example.com" (demo_world 0 [] ["abc"])
    = (Returned tt, provisioned_world ["abc"]) /\
  calls (provisioned_world ["abc"]) = calls (demo_world 0 [] ["abc"]).
Proof.
  split; [apply demo_provisioning_returns |].
  exact (proj1 (@provisioning_is_local (demo_env (Exited 0))
                  "web" "8443" "example" "svc.example.com" _ _
                  (demo_provisioning_returns "abc" []))).
Defined.

Lemma reprovisioning_overwrites_witness :
  stdin (provisioned_world ["abc"; "longer passphrase"])
    = ["longer passphrase"] /\
  fs (provisioned_world ["abc"; "longer passphrase"])
    !! ["repo"; "deployments"; "web"; "docker-compose.yaml"]
  = Some (File (demo_render "services: "
                  [ ("HTTPS_PORT_BIND", "8443"); ("KEYSTORE_PASSWORD", "abc");
                    ("PKI_NAME", "example");
                    ("DOMAIN_NAME", "svc.example.com") ])) /\
  exists w',
    @_generate_deployment (demo_env (Exited 0)) "web" "9443" "example"
      "other.example.com" (provisioned_world ["abc"; "longer passphrase"])
      = (Returned tt, w') /\
    stdin w' = [] /\
    fs w' =
      <[["repo"; "deployments"; "web"; "host_additions"] :=
          File ("127.0.0.1    " +:+ "other.example.com")]>
        (<[["repo"; "deployments"; "web"; "docker-compose.yaml"] :=
             File (demo_render "services: "
                     [ ("HTTPS_PORT_BIND", "9443");
                       ("KEYSTORE_PASSWORD", "longer passphrase");
                       ("PKI_NAME", "example");
                       ("DOMAIN_NAME", "other.example.com") ])]>
           (fs (provisioned_world ["abc"; "longer passphrase"]))).
Proof.
  split; [vm_compute; reflexivity |]. split; [vm_compute; reflexivity |].
  apply (@reprovisioning_overwrites (demo_env (Exited 0))
           "web" "9443" "example" "other.example.com"
           (provisioned_world ["abc"; "longer passphrase"])
           ["repo"; "deployments"; "web"]
           ["repo"; "deployments"; "docker-compose-template.j2"]
           "services: " "longer passphrase"
           (demo_render "services: "
              [ ("HTTPS_PORT_BIND", "9443");
                ("KEYSTORE_PASSWORD", "longer passphrase");
                ("PKI_NAME", "example");
                ("DOMAIN_NAME", "other.example.com") ])
           []);
    vm_compute; reflexivity.
Defined.

Lemma unlock_after_failed_decryption_witness :
  1 <> 0 /\
  is_dir demo_tree ["repo"] = true /\
  exists w',
    @_git_crypt_unlock (scripted_env openssl_fails) "k3y"
      (demo_world 0 [] []) = (Returned tt, w') /\
    stdout w' = [ "Unlocking the repository..." +:+ nl;
                  "Error: Unlocking failed" +:+ nl ].
Proof.
  assert (1 <> 0) as Hcode by lia.
  assert (is_dir demo_tree ["repo"] = true) as Hdir
    by (vm_compute; reflexivity).
  split; [exact Hcode |]. split; [exact Hdir |].
  destruct (@unlock_after_failed_decryption (scripted_env openssl_fails)
              "k3y" (demo_world 0 [] []) 1 demo_tree Hcode eq_refl Hdir)
    as (w' & Hrun & _ & Hout & _).
  exists w'. split; [exact Hrun | exact Hout].
Defined.

Lemma unlock_ignores_git_crypt_status_witness :
  exists w',
    @_git_crypt_unlock (scripted_env git_crypt_fails) "k3y"
      (demo_world 0 [] []) = (Returned tt, w') /\
    stdout w' = [ "Unlocking the repository..." +:+ nl ].
Proof.
  destruct (@unlock_ignores_git_crypt_status (scripted_env git_crypt_fails)
              "k3y" (demo_world 0 [] []) 1 demo_tree demo_tree
              eq_refl eq_refl)
    as (w' & Hrun & _ & _ & Hout).
  exists w'. split; [exact Hrun | exact Hout].
Defined.

Lemma main_with_nothing_requested_witness :
  euid (demo_world 0 ["--pki-init"; EmptyString] []) = 0 /\
  requested (mkNamespace (Some EmptyString) None None None None) = [] /\
  @main (demo_env (Exited 0)) (demo_world 0 ["--pki-init"; EmptyString] [])
    = (Returned tt, demo_world 0 ["--pki-init"; EmptyString] []) /\
  @main (demo_env (Exited 0)) (demo_world 0 [] [])
    = (Raised (SystemExit 1),
       emit_err "usage: pki_playground.py [-h] ..." (demo_world 0 [] [])).
Proof.
  split; [reflexivity |]. split; [reflexivity |]. split.
  - exact (@main_with_nothing_requested (demo_env (Exited 0))
             (mkNamespace (Some EmptyString) None None None None)
             (demo_world 0 ["--pki-init"; EmptyString] [])
             eq_refl eq_refl eq_refl).
  - exact (@main_with_nothing_requested (demo_env (Exited 0))
             no_arguments (demo_world 0 [] []) eq_refl eq_refl eq_refl).
Defined.

Lemma failed_bootstrap_blocks_retry_witness :
  @openssl_keeps_dirs (scripted_env openssl_fails) /\
  (@_generate_root_certs (scripted_env openssl_fails) "example"
     (demo_world 0 [] [])).1 = Raised (CalledProcessError 1) /\
  exists w2,
    @_generate_root_certs (scripted_env openssl_fails) "example"
      (@_generate_root_certs (scripted_env openssl_fails) "example"
         (demo_world 0 [] [])).2
    = (Raised (SystemExit 1), w2).
Proof.
  assert ((@_generate_root_certs (scripted_env openssl_fails) "example"
             (demo_world 0 [] [])).1 = Raised (CalledProcessError 1))
    as Hfirst by (vm_compute; reflexivity).
  split; [apply scripted_openssl_keeps_dirs |]. split; [exact Hfirst |].
  destruct (@failed_bootstrap_blocks_retry (scripted_env openssl_fails)
              "example" _ _ 1 (scripted_openssl_keeps_dirs openssl_fails)
              (raised_eta _ _ Hfirst))
    as (w2 & Hrun & _).
  exists w2. exact Hrun.
Defined.

Lemma bootstrap_footprint_witness :
  @_generate_root_certs (demo_env (Exited 0)) "example" (demo_world 0 [] [])
    = (Returned tt, bootstrapped_world []) /\
  stdin (bootstrapped_world []) = stdin (demo_world 0 [] []).
Proof.
  split; [apply demo_bootstrap_returns |].
  exact (proj1 (@bootstrap_footprint (demo_env (Exited 0)) "example" _ _
                  (demo_bootstrap_returns []))).
Defined.


Lemma provisioned_facts :
  let w := provisioned_world ["abc"] in
  isfile_in (fs w) (cwd w)
    (path_join DEP_DIR "web" +:+ "/docker-compose.yaml") = true /\
  resolve (fs w) (cwd w) (path_join DEP_DIR "web" +:+ "/host_additions")
    = Some ["repo"; "deployments"; "web"; "host_additions"] /\
  fs w !! ["repo"; "deployments"; "web"; "host_additions"]
    = Some (File ("127.0.0.1    " +:+ "svc.example.com")) /\
  resolve (fs w) (cwd w) (path_join DEP_DIR "web")
    = Some ["repo"; "deployments"; "web"] /\
  is_dir (fs w) ["repo"; "deployments"; "web"] = true /\
  fs w !! ["etc"] = Some Dir /\
  fs w !! ["etc"; "hosts"] = Some (File ("127.0.0.1 localhost" +:+ nl)) /\
  is_dir (fs w) ["etc"; "hosts.tmp"] = false.
Proof. repeat split; vm_compute; reflexivity. Qed.

Lemma activation_child_exit_witness :
  exists w',
    @_start_deployment (demo_env (Exited 1)) "web" (provisioned_world ["abc"])
      = (Raised (CalledProcessError 1), w') /\
    fs w' =
      <[["etc"; "hosts"] :=
          File (("127.0.0.1 localhost" +:+ nl) +:+ nl
                +:+ universal_newlines ("127.0.0.1    " +:+ "svc.example.com"))]>
        (fs (provisioned_world ["abc"])).
Proof.
  destruct provisioned_facts
    as (Hyaml & Hr & Hkh & Hwd & Hkd & Hetc & Hhosts & _).
  destruct (@activation_child_exit (demo_env (Exited 1)) "web"
              ("127.0.0.1    " +:+ "svc.example.com")
              ("127.0.0.1 localhost" +:+ nl) (provisioned_world ["abc"])
              _ _ 1 _ Hyaml Hr Hkh Hwd Hkd Hetc Hhosts eq_refl)
    as (w' & Hrun & Hfs & _).
  exists w'. split; [exact Hrun | exact Hfs].
Defined.


